(** * Gardin query API sample client

    A shallow embedding of [gardin_api_query_example.py] and the
    verification of its specification.

    The script talks to the outside world only through [requests.get],
    [requests.post], [print], [sleep], [time] and one file write.  These are
    modelled by a small state-and-exception monad over a [State] that keeps
    the ordered trace of effects, the number of HTTP requests sent so far and
    the file system, and by a [World] that scripts what the outside answers:
    a response or an exception of the transport for each request, the clock,
    and Python's [str()] on values that are not strings.

    The [while True] loop of [monitor_query_status] takes one unit of fuel
    per iteration; running out of fuel is the outcome [Unfinished], so that
    a loop that never ends is one that is [Unfinished] for every fuel.

    Python [str] values are represented by Rocq strings, read as the UTF-8
    bytes of the text, so [s.encode('utf-8')] and [b.decode('utf-8')] are the
    identity on the representation. *)

From Stdlib Require Import ZArith NArith Ascii String DecimalString Lia.
From Stdlib Require Import DecimalPos DecimalZ.
From stdpp Require Import base option list gmap strings.

Set Warnings "-register-all".
Set Default Proof Using "Type".

Local Open Scope Z_scope.

(** ** Library model: RFC 4648 base64

    [b64encode] is [base64.b64encode]; [b64decode] is the strict decoder of
    the RFC ([base64.b64decode] with [validate=True]), which is what Python's
    default decoder computes on well-formed input. *)

Module Base64.

Definition alphabet : string :=
  "ABCDEFGHIJKLMNOPQRSTUVWXYZabcdefghijklmnopqrstuvwxyz0123456789+/".

Definition pad : ascii := "="%char.

(** The character of a 6-bit value. *)
Definition char_of (i : N) : ascii :=
  match String.get (N.to_nat i) alphabet with
  | Some c => c
  | None => pad
  end.

Fixpoint find_from (c : ascii) (s : string) (i : N) : option N :=
  match s with
  | EmptyString => None
  | String c' s' => if Ascii.eqb c c' then Some i else find_from c s' (N.succ i)
  end.

(** The 6-bit value of a character of the alphabet. *)
Definition value_of (c : ascii) : option N := find_from c alphabet 0%N.

Definition sextet (n : N) (k : N) : ascii :=
  char_of ((n / 2 ^ (6 * k)) mod 64)%N.

Definition octet (n : N) (k : N) : ascii :=
  ascii_of_N ((n / 2 ^ (8 * k)) mod 256)%N.

(** Three input bytes make one 24-bit group, written as four characters;
    a tail of one or two bytes is padded with zero bits and [=]. *)
Fixpoint b64encode (bs : string) : string :=
  match bs with
  | EmptyString => EmptyString
  | String a EmptyString =>
      let n := (N_of_ascii a * 16)%N in
      String (sextet n 1) (String (sextet n 0) (String pad (String pad EmptyString)))
  | String a (String b EmptyString) =>
      let n := ((N_of_ascii a * 256 + N_of_ascii b) * 4)%N in
      String (sextet n 2) (String (sextet n 1) (String (sextet n 0)
        (String pad EmptyString)))
  | String a (String b (String c rest)) =>
      let n := (N_of_ascii a * 65536 + N_of_ascii b * 256 + N_of_ascii c)%N in
      String (sextet n 3) (String (sextet n 2) (String (sextet n 1)
        (String (sextet n 0) (b64encode rest))))
  end.

Definition group2 (c1 c2 : ascii) : option N :=
  v1 ← value_of c1; v2 ← value_of c2; Some (v1 * 64 + v2)%N.

Definition group3 (c1 c2 c3 : ascii) : option N :=
  n ← group2 c1 c2; v3 ← value_of c3; Some (n * 64 + v3)%N.

Definition group4 (c1 c2 c3 c4 : ascii) : option N :=
  n ← group3 c1 c2 c3; v4 ← value_of c4; Some (n * 64 + v4)%N.

(** Strict decoding: four characters at a time, padding only at the end. *)
Fixpoint b64decode (s : string) : option string :=
  match s with
  | EmptyString => Some EmptyString
  | String c1 (String c2 (String c3 (String c4 rest))) =>
      if Ascii.eqb c4 pad then
        match rest with
        | EmptyString =>
            if Ascii.eqb c3 pad then
              n ← group2 c1 c2;
              Some (String (octet (n / 16) 0) EmptyString)
            else
              n ← group3 c1 c2 c3;
              Some (String (octet (n / 4) 1) (String (octet (n / 4) 0) EmptyString))
        | _ => None
        end
      else
        n ← group4 c1 c2 c3 c4;
        tail ← b64decode rest;
        Some (String (octet n 2) (String (octet n 1) (String (octet n 0) tail)))
  | _ => None
  end.

End Base64.

(** ** Python values that [json.loads] can produce *)

Inductive json : Type :=
| JNull
| JBool (b : bool)
| JInt (z : Z)
| JFloat (repr : string)
| JStr (s : string)
| JList (l : list json)
| JDict (d : gmap string json).

(** [v == s] for a [str] literal [s]: only an equal [str] compares equal. *)
Definition py_eq_str (v : json) (s : string) : bool :=
  match v with
  | JStr t => String.eqb t s
  | _ => false
  end.

(** [v in [s1, ..., sn]] for a list of [str] literals. *)
Definition py_in (v : json) (l : list string) : bool :=
  existsb (py_eq_str v) l.

(** [str(n)] for an [int]. *)
Definition str_int (n : Z) : string := NilZero.string_of_int (Z.to_int n).

(** ** HTTP requests and responses, as [requests] shows them to the script *)

Inductive method := GET | POST.

(** The [data=] argument: absent, a dict sent form-encoded, or the text
    [json.dumps(v)] of a value. *)
Inductive payload :=
| NoData
| FormData (fields : list (string * string))
| JsonDumps (v : json).

Record Request := mkRequest {
  rq_method : method;
  rq_url : string;
  rq_headers : gmap string string;
  rq_data : payload }.

(** What the script reads of a [requests.Response]: [status_code], [reason],
    the outcome of [json.loads(response.text)] ([None] when it raises) and
    the raw [content]. *)
Record Response := mkResponse {
  status_code : Z;
  reason : string;
  text_json : option json;
  content : string }.

(** [Response.ok] of the requests library: [raise_for_status()] raises for
    the client errors 400..499 and the server errors 500..599, and [ok] is
    true exactly when it does not raise. *)
Definition ok (r : Response) : bool :=
  negb ((400 <=? status_code r) && (status_code r <? 600)).

Inductive exn :=
| RuntimeError (msg : string)
| JSONDecodeError
| AttributeError
| RequestException (what : string).

(** ** Effects *)

Inductive Event :=
| EPrint (line : string)
| EHttp (rq : Request)
| ESleep (secs : Z)
| EWrite (path : string) (data : string).

Inductive reply :=
| Answer (r : Response)
| Broken (e : exn).

(** The outside world: the reply to the [n]-th HTTP request of the run, the
    wall clock in whole seconds (the value of [int(time())]) after a given
    history, and Python's [str()] on values that are not already [str]. *)
Record World := mkWorld {
  net : nat → Request → reply;
  clock : list Event → Z;
  py_str : json → string }.

Record State := mkState {
  trace : list Event;
  sent : nat;
  fs : gmap string string }.

Definition initial : State := mkState [] 0 ∅.

Inductive outcome (A : Type) :=
| Done (a : A)
| Raised (e : exn)
| Unfinished.
Arguments Done {A} a.
Arguments Raised {A} e.
Arguments Unfinished {A}.

Definition M (A : Type) : Type := State → outcome A * State.

Definition ret {A} (a : A) : M A := fun st => (Done a, st).

Definition bind {A B} (m : M A) (k : A → M B) : M B :=
  fun st =>
    match m st with
    | (Done a, st') => k a st'
    | (Raised e, st') => (Raised e, st')
    | (Unfinished, st') => (Unfinished, st')
    end.

Definition raise {A} (e : exn) : M A := fun st => (Raised e, st).

Definition out_of_fuel {A} : M A := fun st => (Unfinished, st).

Declare Scope py_scope.
Delimit Scope py_scope with py.
Notation "x <- m ; k" := (bind m (fun x => k))
  (at level 20, m at level 100, k at level 200) : py_scope.
Notation "m ;; k" := (bind m (fun _ => k))
  (at level 100, k at level 200, right associativity) : py_scope.
Local Open Scope py_scope.

Definition log (e : Event) (st : State) : State :=
  mkState (trace st ++ [e]) (sent st) (fs st).

Definition print (line : string) : M unit :=
  fun st => (Done tt, log (EPrint line) st).

Definition sleep (secs : Z) : M unit :=
  fun st => (Done tt, log (ESleep secs) st).

Definition write_file (path data : string) : M unit :=
  fun st => (Done tt, mkState (trace st ++ [EWrite path data]) (sent st)
                              (<[path := data]> (fs st))).

(** [json.loads(response.text)] *)
Definition json_loads (response : Response) : M json :=
  match text_json response with
  | Some v => ret v
  | None => raise JSONDecodeError
  end.

(** [v.get(key, dflt)]: only a dict has the method. *)
Definition dict_get (v : json) (key : string) (dflt : json) : M json :=
  match v with
  | JDict d => ret (default dflt (d !! key))
  | _ => raise AttributeError
  end.

(** Configuration constants *)
Definition QUERY_STATUS_POLLING_WAIT_SECS : Z := 10.
Definition CSV_DOWNLOAD_PATH_PREFIX : string := "gardin_query_api_results_".

Section Client.

Variable w : World.

(** The credentials the script keeps in module-level constants. *)
Variables CLIENT_ID CLIENT_SECRET : string.

(** A value placed in an f-string. *)
Definition fmt (v : json) : string :=
  match v with
  | JStr s => s
  | _ => py_str w v
  end.

Definition send (rq : Request) : M Response :=
  fun st =>
    let st' := mkState (trace st ++ [EHttp rq]) (S (sent st)) (fs st) in
    match net w (sent st) rq with
    | Answer r => (Done r, st')
    | Broken e => (Raised e, st')
    end.

Definition requests_get (url : string) (headers : gmap string string)
  : M Response :=
  send (mkRequest GET url headers NoData).

Definition requests_post (url : string) (headers : gmap string string)
    (data : payload) : M Response :=
  send (mkRequest POST url headers data).

(** [int(time())] *)
Definition time : M Z := fun st => (Done (clock w (trace st)), st).

Definition check_api_response (response : Response) (action : string)
  : M unit :=
  print (action +:+ " - Response Status " +:+ str_int (status_code response));;
  if negb (ok response) then
    print ("Request Response Error Code " +:+ reason response);;
    raise (RuntimeError ("API request failed: " +:+ reason response))
  else ret tt.

Definition login_url : string := "https://login.gardin.ag/oauth2/token".

Definition auth_headers : gmap string string :=
  let credentials := CLIENT_ID +:+ ":" +:+ CLIENT_SECRET in
  let encoded_credentials := Base64.b64encode credentials in
  <["Authorization" := "Basic " +:+ encoded_credentials]>
    (<["Content-Type" := "application/x-www-form-urlencoded"]> ∅).

Definition get_auth_token : M json :=
  let auth_payload := [("grant_type", "client_credentials")] in
  response <- requests_post login_url auth_headers (FormData auth_payload);
  check_api_response response "Get Authentication token";;
  body <- json_loads response;
  dict_get body "access_token" (JStr "").

Definition query_url : string := "https://api.gardin.ag/v1/query".

Definition query_payload : json :=
  JDict (<["type" := JStr "indices"]>
          (<["filters" :=
               JDict (<["from" := JStr "2024-12-01T17:32:28Z"]>
                       (<["to" := JStr "2024-12-30T00:23:46Z"]> ∅))]> ∅)).

Definition submit_query (token : json) (headers : gmap string string)
  : M json :=
  response <- requests_post query_url headers (JsonDumps query_payload);
  check_api_response response "Execute Query";;
  body <- json_loads response;
  dict_get body "queryId" (JStr "").

Definition status_url (query_id : json) : string :=
  "https://api.gardin.ag/v1/query/" +:+ fmt query_id +:+ "/status/".

(** The [while True] loop, one iteration per unit of fuel; [continue] is
    the recursive call. *)
Fixpoint monitor_query_status (fuel : nat) (query_id : json)
    (headers : gmap string string) : M bool :=
  match fuel with
  | O => out_of_fuel
  | S fuel' =>
      response <- requests_get (status_url query_id) headers;
      check_api_response response "Get Processing status";;
      body <- json_loads response;
      status <- dict_get body "status" (JStr "NO_STATUS_RETURNED");
      if py_in status ["SUBMITTED"; "IN_PROGRESS"; "RUNNING"] then
        print ("Waiting " +:+ str_int QUERY_STATUS_POLLING_WAIT_SECS
               +:+ " seconds for query to complete - Current Status: "
               +:+ fmt status);;
        sleep QUERY_STATUS_POLLING_WAIT_SECS;;
        monitor_query_status fuel' query_id headers
      else if py_eq_str status "COMPLETED" then
        print ("Query completed with status: " +:+ fmt status);;
        ret true
      else if py_in status ["FAILED"; "CANCELLED"] then
        print ("Query failed with status: " +:+ fmt status);;
        ret false
      else
        print ("Error:Unknown status -" +:+ fmt status);;
        ret false
  end.

Definition download_url (query_id : json) : string :=
  "https://api.gardin.ag/v1/query/" +:+ fmt query_id +:+ "/result/download".

Definition download_results (query_id : json) (headers : gmap string string)
  : M json :=
  response <- requests_get (download_url query_id) headers;
  check_api_response response "Get URI for csv file";;
  body <- json_loads response;
  dict_get body "uri" (JStr "").

Definition save_results (signed_uri : json) : M unit :=
  now <- time;
  let csv_filename := CSV_DOWNLOAD_PATH_PREFIX +:+ str_int now +:+ ".csv" in
  print ("Downloading csv file to " +:+ csv_filename);;
  response <- requests_get (fmt signed_uri) ∅;
  write_file csv_filename (content response);;
  print "Download Completed".

Definition bearer_headers (token : json) : gmap string string :=
  <["Content-Type" := "application/json"]>
    (<["Accept" := "application/json"]>
      (<["Authorization" := "Bearer " +:+ fmt token]> ∅)).

Definition main (fuel : nat) : M unit :=
  token <- get_auth_token;
  let headers := bearer_headers token in
  query_id <- submit_query token headers;
  print ("Query submitted with ID: " +:+ fmt query_id);;
  query_completed <- monitor_query_status fuel query_id headers;
  if query_completed then
    signed_uri <- download_results query_id headers;
    save_results signed_uri
  else
    print "Query did not complete successfully".

End Client.

(** ** Vocabulary of the statements *)

(** The state reached from [st] after the effects [es], [n] of them HTTP
    requests, none of them a file write. *)
Definition after (es : list Event) (n : nat) (st : State) : State :=
  mkState (trace st ++ es) (n + sent st) (fs st).

(** The first line [check_api_response] prints. *)
Definition status_line (action : string) (r : Response) : Event :=
  EPrint (action +:+ " - Response Status " +:+ str_int (status_code r)).

(** The second line it prints for a failed request. *)
Definition error_line (r : Response) : Event :=
  EPrint ("Request Response Error Code " +:+ reason r).

Definition api_error (r : Response) : exn :=
  RuntimeError ("API request failed: " +:+ reason r).

Definition login_request (client_id client_secret : string) : Request :=
  mkRequest POST login_url (auth_headers client_id client_secret)
            (FormData [("grant_type", "client_credentials")]).

Definition submit_request (headers : gmap string string) : Request :=
  mkRequest POST query_url headers (JsonDumps query_payload).

Definition status_request (w : World) (query_id : json)
    (headers : gmap string string) : Request :=
  mkRequest GET (status_url w query_id) headers NoData.

Definition download_request (w : World) (query_id : json)
    (headers : gmap string string) : Request :=
  mkRequest GET (download_url w query_id) headers NoData.

Definition waiting_line (status : string) : Event :=
  EPrint ("Waiting " +:+ str_int QUERY_STATUS_POLLING_WAIT_SECS
          +:+ " seconds for query to complete - Current Status: " +:+ status).

(** What an operation that sends [rq], checks the response and reads the
    field [key] of its JSON object yields on each kind of reply. *)
Definition fetched (rq : Request) (action key : string) (st : State) (a : reply)
  : outcome json * State :=
  match a with
  | Broken e => (Raised e, after [EHttp rq] 1 st)
  | Answer r =>
      if ok r then
        match text_json r with
        | None => (Raised JSONDecodeError, after [EHttp rq; status_line action r] 1 st)
        | Some (JDict d) =>
            (Done (default (JStr "") (d !! key)),
             after [EHttp rq; status_line action r] 1 st)
        | Some _ => (Raised AttributeError, after [EHttp rq; status_line action r] 1 st)
        end
      else
        (Raised (api_error r),
         after [EHttp rq; status_line action r; error_line r] 1 st)
  end.

Definition submitted_line (w : World) (query_id : json) : Event :=
  EPrint ("Query submitted with ID: " +:+ fmt w query_id).

(** The name [save_results] gives the file when the clock reads [now]. *)
Definition csv_name (now : Z) : string :=
  CSV_DOWNLOAD_PATH_PREFIX +:+ str_int now +:+ ".csv".

(** The last line the loop prints for a status that is neither pending nor
    COMPLETED. *)
Definition failure_line (status : string) : Event :=
  if bool_decide (status ∈ ["FAILED"; "CANCELLED"])
  then EPrint ("Query failed with status: " +:+ status)
  else EPrint ("Error:Unknown status -" +:+ status).

(** A reply that passes [check_api_response] and whose JSON object holds
    the given value under the given key. *)
Definition carries (key : string) (v : json) (a : reply) : Prop :=
  ∃ r d, a = Answer r ∧ ok r = true ∧ text_json r = Some (JDict d)
         ∧ d !! key = Some v.

Definition http_failure (a : reply) : Prop :=
  ∃ r, a = Answer r ∧ ok r = false.

Definition is_pending (s : string) : bool :=
  bool_decide (s ∈ ["SUBMITTED"; "IN_PROGRESS"; "RUNNING"]).

(** The value one iteration of the polling loop reads as the status, when
    the iteration gets that far. *)
Definition status_read (a : reply) : option json :=
  match a with
  | Answer r =>
      if ok r then
        match text_json r with
        | Some (JDict d) => Some (default (JStr "NO_STATUS_RETURNED") (d !! "status"))
        | _ => None
        end
      else None
  | Broken _ => None
  end.

(** The replies that make the loop go round once more. *)
Definition keeps_polling (a : reply) : bool :=
  match status_read a with
  | Some v => py_in v ["SUBMITTED"; "IN_PROGRESS"; "RUNNING"]
  | None => false
  end.

(** The polling loop ends on its own: some amount of fuel lets it return
    or raise. *)
Definition terminates (w : World) (query_id : json)
    (headers : gmap string string) (st : State) : Prop :=
  ∃ fuel o st',
    monitor_query_status w fuel query_id headers st = (o, st') ∧ o ≠ Unfinished.

(** The effects without the console output. *)
Definition is_print (e : Event) : bool :=
  match e with EPrint _ => true | _ => false end.

Definition io (es : list Event) : list Event :=
  filter (λ e, is_print e = false) es.

Definition console (es : list Event) : list string :=
  omap (λ e, match e with EPrint line => Some line | _ => None end) es.

Definition sleeps (es : list Event) : list Z :=
  omap (λ e, match e with ESleep n => Some n | _ => None end) es.

Definition requests (es : list Event) : list Request :=
  omap (λ e, match e with EHttp rq => Some rq | _ => None end) es.

Definition writes (es : list Event) : list (string * string) :=
  omap (λ e, match e with EWrite p d => Some (p, d) | _ => None end) es.

(** The status poller as section 4.3 of the specification words it: the
    labels SUBMITTED, IN_PROGRESS and RUNNING are the pending state,
    COMPLETED is terminal success, anything else is terminal failure; on
    each poll the status is fetched, a pending one is followed by a sleep of
    the fixed 10 seconds and another poll, a terminal one stops the machine
    with a boolean. *)
Module Spec.

Inductive job_state := Pending | Succeeded | Failed.

Definition classify (status : string) : job_state :=
  if bool_decide (status ∈ ["SUBMITTED"; "IN_PROGRESS"; "RUNNING"]) then Pending
  else if bool_decide (status = "COMPLETED") then Succeeded
  else Failed.

(** The machine run on the statuses the successive polls return: its
    requests and sleeps in order, and its verdict if it has stopped. *)
Fixpoint poller (poll : Request) (statuses : list string)
  : list Event * option bool :=
  match statuses with
  | [] => ([], None)
  | s :: rest =>
      match classify s with
      | Pending =>
          let '(es, verdict) := poller poll rest in
          (EHttp poll :: ESleep 10 :: es, verdict)
      | Succeeded => ([EHttp poll], Some true)
      | Failed => ([EHttp poll], Some false)
      end
  end.

End Spec.

(** The polls from request number [n] on return the given statuses. *)
Fixpoint polls_return (w : World) (poll : Request) (n : nat)
    (statuses : list string) : Prop :=
  match statuses with
  | [] => True
  | s :: rest =>
      carries "status" (JStr s) (net w n poll) ∧ polls_return w poll (S n) rest
  end.

(** ** Scripted worlds *)

Definition json_response (code : Z) (phrase : string)
    (fields : list (string * json)) : Response :=
  mkResponse code phrase (Some (JDict (list_to_map fields))) "".

Definition json_reply (code : Z) (phrase : string)
    (fields : list (string * json)) : reply :=
  Answer (json_response code phrase fields).

Definition status_reply (s : string) : reply :=
  json_reply 200 "OK" [("status", JStr s)].

Definition no_reply : reply := Broken (RequestException "connection refused").

(** The network hands out the replies of the script in order, whatever is
    asked; the clock stands still; [str()] of a non-string is not needed. *)
Definition scripted (script : list reply) (now : Z) : World :=
  mkWorld (λ n _, nth n script no_reply) (λ _, now) (λ _, "").

(** Every poll is answered with the same reply. *)
Definition constant_world (a : reply) : World :=
  mkWorld (λ _ _, a) (λ _, 0) (λ _, "").

(** The polls of the scenario of section 8: SUBMITTED, RUNNING, COMPLETED. *)
Definition three_polls : World :=
  scripted [status_reply "SUBMITTED"; status_reply "RUNNING";
            status_reply "COMPLETED"] 0.

Definition token_reply : reply := json_reply 200 "OK" [("access_token", JStr "tok")].
Definition submit_reply : reply := json_reply 200 "OK" [("queryId", JStr "abc123")].

(** The end-to-end scenario of section 8. *)
Definition happy_run : World :=
  scripted [token_reply; submit_reply;
            status_reply "IN_PROGRESS"; status_reply "COMPLETED";
            json_reply 200 "OK" [("uri", JStr "https://signed/abc123.csv")];
            Answer (mkResponse 200 "OK" None "a,b,c")] 1700000000.

(** The query fails after one pending poll. *)
Definition failed_run : World :=
  scripted [token_reply; submit_reply;
            status_reply "RUNNING"; status_reply "FAILED"] 1700000000.

(** The second poll is refused. *)
Definition forbidden_poll_run : World :=
  scripted [token_reply; submit_reply;
            status_reply "RUNNING"; json_reply 403 "Forbidden" []] 1700000000.

(** The credentials are refused. *)
Definition unauthorized_run : World :=
  scripted [json_reply 401 "Unauthorized" []] 1700000000.

(** The submission is refused. *)
Definition rejected_submit_run : World :=
  scripted [token_reply; json_reply 400 "Bad Request" []] 1700000000.

(** The token endpoint answers 300 Multiple Choices, a status code outside
    200..299 that [Response.ok] accepts, with a JSON object that holds no
    token; the submission is then refused. *)
Definition multiple_choices_run : World :=
  scripted [json_reply 300 "Multiple Choices" [("message", JStr "see other hosts")];
            json_reply 401 "Unauthorized" []] 1700000000.

(** One pending poll, then COMPLETED. *)
Definition two_polls : World :=
  scripted [status_reply "RUNNING"; status_reply "COMPLETED"] 0.

(** ** Vocabulary of the further properties *)

(** [k] rounds of the polling loop: a poll and the sleep that follows it. *)
Definition rounds (poll : Request) (k : nat) : list Event :=
  mjoin (replicate k [EHttp poll; ESleep 10]).

(** The requests, sleeps and file write of a complete run of [main], in
    order: the token request, the submission, [k] pending polls, the poll
    that ends the loop, the request for the result location, the download
    and the write. *)
Definition run_io (w : World) (client_id client_secret : string)
    (token query_id : json) (k : nat) (uri : json) (now : Z) (body : string)
  : list Event :=
  let headers := bearer_headers w token in
  let poll := status_request w query_id headers in
  [EHttp (login_request client_id client_secret); EHttp (submit_request headers)]
  ++ rounds poll k
  ++ [EHttp poll; EHttp (download_request w query_id headers);
      EHttp (mkRequest GET (fmt w uri) ∅ NoData); EWrite (csv_name now) body].

(** What a run of [main] from [st] that ends in [st'] with outcome [o] has
    done, [es] being the effects it added: it followed the complete run as
    far as it got, and either saved the download or wrote nothing. *)
Definition run_summary (w : World) (client_id client_secret : string)
    (st : State) (o : outcome unit) (st' : State) (es : list Event)
    (token query_id : json) (k : nat) (uri : json) (now : Z) (body : string)
  : Prop :=
  let poll := status_request w query_id (bearer_headers w token) in
  trace st' = trace st ++ es
  ∧ sent st' = (length (requests es) + sent st)%nat
  ∧ io es `prefix_of`
      run_io w client_id client_secret token query_id k uri now body
  ∧ ((o = Done tt
      ∧ io es = run_io w client_id client_secret token query_id k uri now body
      ∧ fs st' = <[csv_name now := body]> (fs st)
      ∧ last (console es) = Some "Download Completed"
      ∧ carries "status" (JStr "COMPLETED") (net w (k + 2 + sent st) poll)
      ∧ ∃ r, net w (k + 4 + sent st) (mkRequest GET (fmt w uri) ∅ NoData)
             = Answer r
             ∧ body = content r)
     ∨ (fs st' = fs st
        ∧ writes es = []
        ∧ (o = Done tt →
           last (console es) = Some "Query did not complete successfully"
           ∧ io es = [EHttp (login_request client_id client_secret);
                      EHttp (submit_request (bearer_headers w token))]
                     ++ rounds poll k ++ [EHttp poll]
           ∧ ¬ carries "status" (JStr "COMPLETED")
                 (net w (k + 2 + sent st) poll)))).

(** [':' in s] *)
Fixpoint has_colon (s : string) : bool :=
  match s with
  | EmptyString => false
  | String c s' => Ascii.eqb c ":" || has_colon s'
  end.

(** The request [save_results] sends. *)
Definition fetch_request (w : World) (signed_uri : json) : Request :=
  mkRequest GET (fmt w signed_uri) ∅ NoData.

(** A response whose body is the JSON array of the given values. *)
Definition list_reply (code : Z) (phrase : string) (items : list json) : reply :=
  Answer (mkResponse code phrase (Some (JList items)) "").

(** The download is refused; the refusal has a body of its own. *)
Definition refused_download : Response :=
  mkResponse 403 "Forbidden" None "<Error>AccessDenied</Error>".

(** Two downloads, the clock reading the same second both times. *)
Definition two_downloads : World :=
  scripted [Answer (mkResponse 200 "OK" None "first");
            Answer (mkResponse 200 "OK" None "second")] 1700000000.

(** * Verification *)

(** ** The model on known inputs *)

(** The test vectors of RFC 4648, section 10. *)
Example b64encode_rfc4648 :
  map Base64.b64encode ["f"; "fo"; "foo"; "foob"; "fooba"; "foobar"]
  = ["Zg=="; "Zm8="; "Zm9v"; "Zm9vYg=="; "Zm9vYmE="; "Zm9vYmFy"].
Proof. reflexivity. Qed.

Example b64decode_rejects_misplaced_padding :
  map Base64.b64decode ["Zg=="; "Zm8="; "Zg=v"; "Zm9"]
  = [Some "f"; Some "fo"; None; None].
Proof. reflexivity. Qed.

(** What the script prints in the end-to-end scenario of section 8. *)
Example console_of_the_happy_run :
  console (trace (main happy_run "id" "secret" 5 initial).2)
  = ["Get Authentication token - Response Status 200";
     "Execute Query - Response Status 200";
     "Query submitted with ID: abc123";
     "Get Processing status - Response Status 200";
     "Waiting 10 seconds for query to complete - Current Status: IN_PROGRESS";
     "Get Processing status - Response Status 200";
     "Query completed with status: COMPLETED";
     "Get URI for csv file - Response Status 200";
     "Downloading csv file to gardin_query_api_results_1700000000.csv";
     "Download Completed"].
Proof. vm_compute. reflexivity. Qed.

Example requests_of_the_happy_run :
  map rq_url (requests (trace (main happy_run "id" "secret" 5 initial).2))
  = ["https://login.gardin.ag/oauth2/token";
     "https://api.gardin.ag/v1/query";
     "https://api.gardin.ag/v1/query/abc123/status/";
     "https://api.gardin.ag/v1/query/abc123/status/";
     "https://api.gardin.ag/v1/query/abc123/result/download";
     "https://signed/abc123.csv"].
Proof. vm_compute. reflexivity. Qed.

(** ** Base64 round trip *)

Section Base64Facts.
Import Base64.
Local Open Scope N_scope.

Lemma alphabet_table (n : nat) :
  (n < 64)%nat →
  value_of (char_of (N.of_nat n)) = Some (N.of_nat n)
  ∧ Ascii.eqb (char_of (N.of_nat n)) pad = false.
Proof.
  intros Hn.
  do 64 (destruct n as [|n]; [split; vm_compute; reflexivity|]). lia.
Qed.

Lemma value_of_char_of i : i < 64 → value_of (char_of i) = Some i.
Proof.
  intros Hi. rewrite <- (N2Nat.id i). apply alphabet_table. lia.
Qed.

Lemma char_of_not_pad i : i < 64 → Ascii.eqb (char_of i) pad = false.
Proof.
  intros Hi. rewrite <- (N2Nat.id i). apply alphabet_table. lia.
Qed.

Lemma value_of_sextet n k : value_of (sextet n k) = Some ((n / 2 ^ (6 * k)) mod 64).
Proof. apply value_of_char_of, N.mod_lt. discriminate. Qed.

Lemma sextet_not_pad n k : Ascii.eqb (sextet n k) pad = false.
Proof. apply char_of_not_pad, N.mod_lt. discriminate. Qed.

Lemma base64_digits m : m = (m / 64) * 64 + m mod 64 ∧ m mod 64 < 64.
Proof.
  split; [rewrite N.mul_comm; apply N.div_mod' | apply N.mod_lt; discriminate].
Qed.

Lemma group2_sextets n :
  n < 2 ^ 12 → group2 (sextet n 1) (sextet n 0) = Some n.
Proof.
  intros Hn. unfold group2. rewrite !value_of_sextet. simpl. f_equal.
  change (2 ^ 12) with 4096 in Hn.
  change (2 ^ (6 * 1)) with 64. change (2 ^ (6 * 0)) with 1. rewrite N.div_1_r.
  destruct (base64_digits n) as [E0 B0].
  destruct (base64_digits (n / 64)) as [E1 B1].
  revert E0 B0 E1 B1.
  generalize (n mod 64) ((n / 64) mod 64) (n / 64 / 64). generalize (n / 64).
  intros. lia.
Qed.

Lemma group3_sextets n :
  n < 2 ^ 18 → group3 (sextet n 2) (sextet n 1) (sextet n 0) = Some n.
Proof.
  intros Hn. unfold group3, group2. rewrite !value_of_sextet. simpl. f_equal.
  change (2 ^ 18) with 262144 in Hn.
  change (2 ^ (6 * 2)) with (64 * 64).
  change (2 ^ (6 * 1)) with 64. change (2 ^ (6 * 0)) with 1.
  rewrite <- !N.Div0.div_div, N.div_1_r.
  destruct (base64_digits n) as [E0 B0].
  destruct (base64_digits (n / 64)) as [E1 B1].
  destruct (base64_digits (n / 64 / 64)) as [E2 B2].
  revert E0 B0 E1 B1 E2 B2.
  generalize (n mod 64) ((n / 64) mod 64) ((n / 64 / 64) mod 64) (n / 64 / 64 / 64).
  generalize (n / 64 / 64). generalize (n / 64).
  intros. lia.
Qed.

Lemma group4_sextets n :
  n < 2 ^ 24 →
  group4 (sextet n 3) (sextet n 2) (sextet n 1) (sextet n 0) = Some n.
Proof.
  intros Hn. unfold group4, group3, group2. rewrite !value_of_sextet. simpl. f_equal.
  change (2 ^ 24) with 16777216 in Hn.
  change (2 ^ (6 * 3)) with (64 * 64 * 64). change (2 ^ (6 * 2)) with (64 * 64).
  change (2 ^ (6 * 1)) with 64. change (2 ^ (6 * 0)) with 1.
  rewrite <- !N.Div0.div_div, N.div_1_r.
  destruct (base64_digits n) as [E0 B0].
  destruct (base64_digits (n / 64)) as [E1 B1].
  destruct (base64_digits (n / 64 / 64)) as [E2 B2].
  destruct (base64_digits (n / 64 / 64 / 64)) as [E3 B3].
  revert E0 B0 E1 B1 E2 B2 E3 B3.
  generalize (n mod 64) ((n / 64) mod 64) ((n / 64 / 64) mod 64)
    ((n / 64 / 64 / 64) mod 64) (n / 64 / 64 / 64 / 64).
  generalize (n / 64 / 64 / 64). generalize (n / 64 / 64). generalize (n / 64).
  intros. lia.
Qed.

Lemma byte_bound a : N_of_ascii a < 256.
Proof. apply N_ascii_bounded. Qed.

(** Reading byte [k] back out of a number built from bytes. *)
Lemma octet_of_bytes hi a lo k :
  lo < 2 ^ (8 * k) →
  octet ((hi * 256 + N_of_ascii a) * 2 ^ (8 * k) + lo) k = a.
Proof.
  intros Hlo. unfold octet.
  rewrite N.div_add_l by (apply N.pow_nonzero; discriminate).
  rewrite (N.div_small lo) by exact Hlo.
  rewrite N.add_0_r, N.add_comm, N.Div0.mod_add.
  rewrite N.mod_small by apply byte_bound.
  apply ascii_N_embedding.
Qed.

Lemma decode_triple a b c :
  let n := N_of_ascii a * 65536 + N_of_ascii b * 256 + N_of_ascii c in
  n < 2 ^ 24 ∧ octet n 2 = a ∧ octet n 1 = b ∧ octet n 0 = c.
Proof.
  intros n. pose proof (byte_bound a). pose proof (byte_bound b).
  pose proof (byte_bound c).
  split; [subst n; change (2 ^ 24) with 16777216; lia|].
  split; [|split].
  - replace n with ((0 * 256 + N_of_ascii a) * 2 ^ (8 * 2)
                    + (N_of_ascii b * 256 + N_of_ascii c))
      by (subst n; change (2 ^ (8 * 2)) with 65536; lia).
    apply octet_of_bytes. change (2 ^ (8 * 2)) with 65536. lia.
  - replace n with ((N_of_ascii a * 256 + N_of_ascii b) * 2 ^ (8 * 1) + N_of_ascii c)
      by (subst n; change (2 ^ (8 * 1)) with 256; lia).
    apply octet_of_bytes. change (2 ^ (8 * 1)) with 256. lia.
  - replace n with (((N_of_ascii a * 256 + N_of_ascii b) * 256 + N_of_ascii c)
                    * 2 ^ (8 * 0) + 0)
      by (subst n; change (2 ^ (8 * 0)) with 1; lia).
    apply octet_of_bytes. reflexivity.
Qed.

Lemma decode_pair a b :
  let n := (N_of_ascii a * 256 + N_of_ascii b) * 4 in
  n < 2 ^ 18 ∧ octet (n / 4) 1 = a ∧ octet (n / 4) 0 = b.
Proof.
  intros n. pose proof (byte_bound a). pose proof (byte_bound b).
  split; [subst n; change (2 ^ 18) with 262144; lia|].
  subst n. rewrite N.div_mul by discriminate.
  split.
  - replace (N_of_ascii a * 256 + N_of_ascii b)
      with ((0 * 256 + N_of_ascii a) * 2 ^ (8 * 1) + N_of_ascii b)
      by (change (2 ^ (8 * 1)) with 256; lia).
    apply octet_of_bytes. change (2 ^ (8 * 1)) with 256. lia.
  - replace (N_of_ascii a * 256 + N_of_ascii b)
      with ((N_of_ascii a * 256 + N_of_ascii b) * 2 ^ (8 * 0) + 0)
      by (change (2 ^ (8 * 0)) with 1; lia).
    apply octet_of_bytes. reflexivity.
Qed.

Lemma decode_single a :
  let n := N_of_ascii a * 16 in
  n < 2 ^ 12 ∧ octet (n / 16) 0 = a.
Proof.
  intros n. pose proof (byte_bound a).
  split; [subst n; change (2 ^ 12) with 4096; lia|].
  subst n. rewrite N.div_mul by discriminate.
  replace (N_of_ascii a) with ((0 * 256 + N_of_ascii a) * 2 ^ (8 * 0) + 0) at 1
    by (change (2 ^ (8 * 0)) with 1; lia).
  apply octet_of_bytes. reflexivity.
Qed.

(** Induction over a string three bytes at a time. *)
Lemma by_triples (P : string → Prop) :
  P EmptyString →
  (∀ a, P (String a EmptyString)) →
  (∀ a b, P (String a (String b EmptyString))) →
  (∀ a b c rest, P rest → P (String a (String b (String c rest)))) →
  ∀ s, P s.
Proof.
  intros H0 H1 H2 H3.
  assert (∀ s, P s ∧ (∀ a, P (String a s)) ∧ (∀ a b, P (String a (String b s))))
    as Hall.
  { induction s as [|c s (IH0 & IH1 & IH2)]; [by auto|].
    split; [exact (IH1 c)|]. split; [exact (λ a, IH2 a c)|].
    intros a b. by apply H3. }
  intros s. apply Hall.
Qed.

Lemma b64decode_b64encode s : b64decode (b64encode s) = Some s.
Proof.
  induction s as [|a|a b|a b c rest IH] using by_triples.
  - reflexivity.
  - destruct (decode_single a) as [Hn Ha].
    cbn [b64encode b64decode]. rewrite Ascii.eqb_refl.
    rewrite (group2_sextets _ Hn). cbn [mbind option_bind]. by rewrite Ha.
  - destruct (decode_pair a b) as (Hn & Ha & Hb).
    cbn [b64encode b64decode]. rewrite Ascii.eqb_refl, sextet_not_pad.
    rewrite (group3_sextets _ Hn). cbn [mbind option_bind]. by rewrite Ha, Hb.
  - destruct (decode_triple a b c) as (Hn & Ha & Hb & Hc).
    cbn [b64encode b64decode]. rewrite sextet_not_pad.
    rewrite (group4_sextets _ Hn). cbn [mbind option_bind].
    rewrite IH. cbn [mbind option_bind]. by rewrite Ha, Hb, Hc.
Qed.
End Base64Facts.

(** ** Running the client *)

Section Facts.
Variable w : World.
Variables CLIENT_ID CLIENT_SECRET : string.

Lemma after_after es1 n1 es2 n2 st :
  after es2 n2 (after es1 n1 st) = after (es1 ++ es2) (n2 + n1) st.
Proof. unfold after; simpl. f_equal; [apply eq_sym, app_assoc | lia]. Qed.

Lemma check_pass r action st :
  ok r = true →
  check_api_response r action st = (Done tt, after [status_line action r] 0 st).
Proof. intros H. unfold check_api_response, bind, print. simpl. rewrite H. reflexivity. Qed.

Lemma check_fail r action st :
  ok r = false →
  check_api_response r action st
  = (Raised (api_error r), after [status_line action r; error_line r] 0 st).
Proof. intros H. unfold check_api_response, bind, print. simpl. rewrite H. simpl.
  unfold log, after. simpl. rewrite <- app_assoc. reflexivity. Qed.

Lemma bind_run {A B} (m : M A) (k : A → M B) st :
  bind m k st
  = match m st with
    | (Done a, st') => k a st'
    | (Raised e, st') => (Raised e, st')
    | (Unfinished, st') => (Unfinished, st')
    end.
Proof. reflexivity. Qed.

Lemma print_run line st : print line st = (Done tt, after [EPrint line] 0 st).
Proof. reflexivity. Qed.

Lemma sleep_run secs st : sleep secs st = (Done tt, after [ESleep secs] 0 st).
Proof. reflexivity. Qed.

Lemma send_run rq st :
  send w rq st
  = match net w (sent st) rq with
    | Answer r => (Done r, after [EHttp rq] 1 st)
    | Broken e => (Raised e, after [EHttp rq] 1 st)
    end.
Proof. reflexivity. Qed.

Lemma monitor_step fuel qid hd st :
  let poll := status_request w qid hd in
  monitor_query_status w (S fuel) qid hd st = 
    match net w (sent st) poll with
    | Broken e => (Raised e, after [EHttp poll] 1 st)
    | Answer r =>
        let line := status_line "Get Processing status" r in
        if ok r then
          match text_json r with
          | None => (Raised JSONDecodeError, after [EHttp poll; line] 1 st)
          | Some (JDict d) =>
              let status := default (JStr "NO_STATUS_RETURNED") (d !! "status") in
              if py_in status ["SUBMITTED"; "IN_PROGRESS"; "RUNNING"] then
                monitor_query_status w fuel qid hd
                  (after [EHttp poll; line; waiting_line (fmt w status); ESleep 10] 1 st)
              else if py_eq_str status "COMPLETED" then
                (Done true,
                 after [EHttp poll; line;
                        EPrint ("Query completed with status: " +:+ fmt w status)] 1 st)
              else if py_in status ["FAILED"; "CANCELLED"] then
                (Done false,
                 after [EHttp poll; line;
                        EPrint ("Query failed with status: " +:+ fmt w status)] 1 st)
              else
                (Done false,
                 after [EHttp poll; line;
                        EPrint ("Error:Unknown status -" +:+ fmt w status)] 1 st)
          | Some _ => (Raised AttributeError, after [EHttp poll; line] 1 st)
          end
        else (Raised (api_error r), after [EHttp poll; line; error_line r] 1 st)
    end.
Proof.
  intros poll. cbn [monitor_query_status].
  rewrite bind_run. unfold requests_get. rewrite send_run.
  fold (status_request w qid hd). fold poll.
  destruct (net w (sent st) poll) as [r|e]; [|reflexivity].
  rewrite bind_run.
  destruct (ok r) eqn:Hok.
  - rewrite (check_pass _ _ _ Hok), after_after.
    rewrite bind_run. unfold json_loads.
    destruct (text_json r) as [body|]; [|reflexivity].
    unfold ret at 1. rewrite bind_run.
    destruct body; try reflexivity.
    unfold dict_get, ret at 1.
    cbv zeta.
    destruct (py_in _ ["SUBMITTED"; "IN_PROGRESS"; "RUNNING"]).
    { rewrite bind_run, print_run, after_after, bind_run, sleep_run, after_after.
      reflexivity. }
    destruct (py_eq_str _ "COMPLETED").
    { rewrite bind_run, print_run, after_after. reflexivity. }
    destruct (py_in _ ["FAILED"; "CANCELLED"]);
      rewrite bind_run, print_run, after_after; reflexivity.
  - rewrite (check_fail _ _ _ Hok), after_after. reflexivity.
Qed.

Lemma after_nothing st : after [] 0 st = st.
Proof. destruct st. unfold after. simpl. by rewrite app_nil_r. Qed.

Lemma ok_2xx r : 200 ≤ status_code r < 300 → ok r = true.
Proof. intros H. unfold ok. destruct (Z.leb_spec 400 (status_code r)); [lia|done]. Qed.

Lemma ok_false r : ok r = false ↔ 400 ≤ status_code r < 600.
Proof.
  unfold ok.
  destruct (Z.leb_spec 400 (status_code r)), (Z.ltb_spec (status_code r) 600);
    simpl; split; intros; lia || done.
Qed.

Lemma py_eq_str_decide s t : py_eq_str (JStr s) t = bool_decide (s = t).
Proof.
  simpl. destruct (String.eqb_spec s t).
  - by rewrite bool_decide_eq_true_2.
  - by rewrite bool_decide_eq_false_2.
Qed.

Lemma py_in_decide s l : py_in (JStr s) l = bool_decide (s ∈ l).
Proof.
  unfold py_in. induction l as [|t l IH]; [done|].
  cbn [existsb]. rewrite IH, py_eq_str_decide.
  destruct (decide (s = t)) as [->|Hne].
  - rewrite bool_decide_eq_true_2 by done. symmetry. apply bool_decide_eq_true_2.
    by left.
  - rewrite (bool_decide_eq_false_2 (s = t)) by done. simpl.
    apply bool_decide_ext. rewrite elem_of_cons. intuition congruence.
Qed.

(** *** The three operations that fetch one field *)

Lemma fetch_run rq action key st :
  (response <- send w rq;
   check_api_response response action;;
   body <- json_loads response;
   dict_get body key (JStr "")) st
  = fetched rq action key st (net w (sent st) rq).
Proof.
  rewrite bind_run, send_run. unfold fetched.
  destruct (net w (sent st) rq) as [r|e]; [|done].
  rewrite bind_run.
  destruct (ok r) eqn:Hok.
  - rewrite (check_pass _ _ _ Hok), after_after, bind_run. unfold json_loads.
    destruct (text_json r) as [body|]; [|done].
    by destruct body.
  - by rewrite (check_fail _ _ _ Hok), after_after.
Qed.

Lemma get_auth_token_run st :
  let rq := login_request CLIENT_ID CLIENT_SECRET in
  get_auth_token w CLIENT_ID CLIENT_SECRET st
  = fetched rq "Get Authentication token" "access_token" st (net w (sent st) rq).
Proof. apply fetch_run. Qed.

Lemma submit_query_run token headers st :
  let rq := submit_request headers in
  submit_query w token headers st
  = fetched rq "Execute Query" "queryId" st (net w (sent st) rq).
Proof. apply fetch_run. Qed.

Lemma download_results_run query_id headers st :
  let rq := download_request w query_id headers in
  download_results w query_id headers st
  = fetched rq "Get URI for csv file" "uri" st (net w (sent st) rq).
Proof. apply fetch_run. Qed.

Lemma save_results_run signed_uri st :
  let rq := mkRequest GET (fmt w signed_uri) ∅ NoData in
  let name := csv_name (clock w (trace st)) in
  save_results w signed_uri st
  = match net w (sent st) rq with
    | Answer r =>
        (Done tt,
         mkState (trace st ++ [EPrint ("Downloading csv file to " +:+ name);
                               EHttp rq; EWrite name (content r);
                               EPrint "Download Completed"])
                 (S (sent st)) (<[name := content r]> (fs st)))
    | Broken e =>
        (Raised e, after [EPrint ("Downloading csv file to " +:+ name); EHttp rq] 1 st)
    end.
Proof.
  intros rq name.
  unfold save_results, bind, time, print, requests_get, send, write_file, log, after.
  cbn [trace sent fs]. fold rq.
  destruct (net w (sent st) rq) as [r|e]; cbn [trace sent fs];
    by rewrite <- !app_assoc.
Qed.

(** *** The orchestrator, step by step *)

Lemma main_token_fails fuel st e st1 :
  get_auth_token w CLIENT_ID CLIENT_SECRET st = (Raised e, st1) →
  main w CLIENT_ID CLIENT_SECRET fuel st = (Raised e, st1).
Proof. intros H. unfold main. by rewrite bind_run, H. Qed.

Lemma main_submit_fails fuel st token st1 e st2 :
  get_auth_token w CLIENT_ID CLIENT_SECRET st = (Done token, st1) →
  submit_query w token (bearer_headers w token) st1 = (Raised e, st2) →
  main w CLIENT_ID CLIENT_SECRET fuel st = (Raised e, st2).
Proof. intros H1 H2. unfold main. by rewrite bind_run, H1, bind_run, H2. Qed.

Lemma main_polls fuel st token st1 query_id st2 :
  get_auth_token w CLIENT_ID CLIENT_SECRET st = (Done token, st1) →
  submit_query w token (bearer_headers w token) st1 = (Done query_id, st2) →
  main w CLIENT_ID CLIENT_SECRET fuel st
  = match monitor_query_status w fuel query_id (bearer_headers w token)
            (after [submitted_line w query_id] 0 st2) with
    | (Done true, st3) =>
        (signed_uri <- download_results w query_id (bearer_headers w token);
         save_results w signed_uri) st3
    | (Done false, st3) =>
        (Done tt, after [EPrint "Query did not complete successfully"] 0 st3)
    | (Raised e, st3) => (Raised e, st3)
    | (Unfinished, st3) => (Unfinished, st3)
    end.
Proof.
  intros H1 H2. unfold main.
  rewrite bind_run, H1, bind_run, H2, bind_run, print_run, bind_run.
  fold (submitted_line w query_id).
  destruct (monitor_query_status _ _ _ _ _) as [[[]|e|] st3]; done.
Qed.

(** *** One round of the polling loop *)

Lemma monitor_on_status query_id headers st r d s :
  let poll := status_request w query_id headers in
  let line := status_line "Get Processing status" r in
  net w (sent st) poll = Answer r →
  ok r = true →
  text_json r = Some (JDict d) →
  d !! "status" = Some (JStr s) →
  ∀ fuel,
    monitor_query_status w (S fuel) query_id headers st
    = match Spec.classify s with
      | Spec.Pending =>
          monitor_query_status w fuel query_id headers
            (after [EHttp poll; line; waiting_line s; ESleep 10] 1 st)
      | Spec.Succeeded =>
          (Done true,
           after [EHttp poll; line; EPrint ("Query completed with status: " +:+ s)]
                 1 st)
      | Spec.Failed =>
          (Done false, after [EHttp poll; line; failure_line s] 1 st)
      end.
Proof.
  intros poll line Hnet Hok Hbody Hstatus fuel.
  rewrite monitor_step. fold poll. rewrite Hnet, Hok, Hbody, Hstatus.
  cbn [default from_option id fmt]. rewrite !py_in_decide, py_eq_str_decide.
  unfold Spec.classify, failure_line.
  repeat case_bool_decide; done.
Qed.

Lemma keeps_polling_carries a :
  keeps_polling a = true ↔ ∃ s, carries "status" (JStr s) a ∧ is_pending s = true.
Proof.
  unfold keeps_polling, status_read, carries, is_pending. split.
  - destruct a as [r|e]; [|done].
    destruct (ok r) eqn:Hok; [|done].
    destruct (text_json r) as [[| | | | | |d]|] eqn:Hbody; try done.
    destruct (d !! "status") as [v|] eqn:Hd; cbn [default from_option id].
    + destruct v as [| | | |s| |]; try done.
      rewrite py_in_decide. intros Hs. exists s. split; [|done]. by exists r, d.
    + done.
  - intros (s & (r & d & -> & Hok & Hbody & Hd) & Hs).
    rewrite Hok, Hbody, Hd. cbn [default from_option id]. by rewrite py_in_decide.
Qed.

Lemma monitor_continues query_id headers st :
  let poll := status_request w query_id headers in
  keeps_polling (net w (sent st) poll) = true →
  ∃ es, io es = [EHttp poll; ESleep 10]
        ∧ ∀ fuel, monitor_query_status w (S fuel) query_id headers st
                  = monitor_query_status w fuel query_id headers (after es 1 st).
Proof.
  intros poll (s & (r & d & Hnet & Hok & Hbody & Hd) & Hs)%keeps_polling_carries.
  eexists. split; [|intros fuel].
  2: { rewrite (monitor_on_status _ _ _ _ _ _ Hnet Hok Hbody Hd).
       unfold Spec.classify. unfold is_pending in Hs. rewrite Hs. reflexivity. }
  reflexivity.
Qed.

Lemma monitor_stops query_id headers st :
  let poll := status_request w query_id headers in
  keeps_polling (net w (sent st) poll) = false →
  ∃ o es, o ≠ Unfinished ∧ io es = [EHttp poll]
          ∧ ∀ fuel, monitor_query_status w (S fuel) query_id headers st
                    = (o, after es 1 st).
Proof.
  intros poll Hstop. unfold keeps_polling, status_read in Hstop.
  assert (∀ (o : outcome bool) es,
            o ≠ Unfinished → io es = [EHttp poll] →
            (∀ fuel, monitor_query_status w (S fuel) query_id headers st
                     = (o, after es 1 st)) →
            ∃ o es, o ≠ Unfinished ∧ io es = [EHttp poll]
                    ∧ ∀ fuel, monitor_query_status w (S fuel) query_id headers st
                              = (o, after es 1 st)) as Hfound by eauto 6.
  destruct (net w (sent st) poll) as [r|e] eqn:Hnet.
  2: { eapply Hfound; [| |intros fuel; rewrite monitor_step; fold poll;
                             rewrite Hnet; reflexivity]; done. }
  destruct (ok r) eqn:Hok.
  2: { eapply Hfound; [| |intros fuel; rewrite monitor_step; fold poll;
                             rewrite Hnet, Hok; reflexivity]; done. }
  destruct (text_json r) as [body|] eqn:Hbody.
  2: { eapply Hfound; [| |intros fuel; rewrite monitor_step; fold poll;
                             rewrite Hnet, Hok, Hbody; reflexivity]; done. }
  destruct body as [| | | | | |d];
    try (eapply Hfound; [| |intros fuel; rewrite monitor_step; fold poll;
                               rewrite Hnet, Hok, Hbody; reflexivity]; done).
  destruct (py_eq_str (default (JStr "NO_STATUS_RETURNED") (d !! "status"))
              "COMPLETED") eqn:Hdone;
    [|destruct (py_in (default (JStr "NO_STATUS_RETURNED") (d !! "status"))
                  ["FAILED"; "CANCELLED"]) eqn:Hfailed];
    (eapply Hfound; [| |intros fuel; rewrite monitor_step; fold poll;
                         rewrite Hnet, Hok, Hbody; cbv zeta;
                         rewrite Hstop, Hdone, ?Hfailed; reflexivity]; done).
Qed.

(** *** Several rounds *)

Lemma io_app es1 es2 : io (es1 ++ es2) = io es1 ++ io es2.
Proof. apply filter_app. Qed.

Lemma monitor_rounds query_id headers n : ∀ st,
  let poll := status_request w query_id headers in
  (∀ i, (i < n)%nat → keeps_polling (net w (i + sent st) poll) = true) →
  ∃ es, io es = mjoin (replicate n [EHttp poll; ESleep 10])
        ∧ ∀ fuel, monitor_query_status w (n + fuel) query_id headers st
                  = monitor_query_status w fuel query_id headers (after es n st).
Proof.
  induction n as [|n IH]; intros st poll Hkeep.
  - exists []. split; [done|]. intros fuel. by rewrite after_nothing.
  - destruct (monitor_continues query_id headers st) as (es1 & Hio1 & Hstep).
    { apply (Hkeep 0%nat). lia. }
    destruct (IH (after es1 1 st)) as (es2 & Hio2 & Hrest).
    { intros i Hi. cbn [sent after].
      replace (i + (1 + sent st))%nat with (S i + sent st)%nat by lia.
      apply Hkeep. lia. }
    exists (es1 ++ es2). split.
    + rewrite io_app, Hio1, Hio2. reflexivity.
    + intros fuel. cbn [Nat.add]. rewrite Hstep, Hrest, after_after.
      by replace (n + 1)%nat with (S n) by lia.
Qed.

Lemma polls_return_lookup poll ss : ∀ n i s,
  polls_return w poll n ss → ss !! i = Some s →
  carries "status" (JStr s) (net w (i + n) poll).
Proof.
  induction ss as [|s0 ss IH]; intros n i s Hpolls Hi; [done|].
  destruct Hpolls as [H0 Hrest]. destruct i as [|i].
  - injection Hi as <-. exact H0.
  - replace (S i + n)%nat with (i + S n)%nat by lia. by apply IH.
Qed.

Lemma polls_return_app poll ss1 ss2 n :
  polls_return w poll n (ss1 ++ ss2)
  ↔ polls_return w poll n ss1 ∧ polls_return w poll (length ss1 + n) ss2.
Proof.
  revert n. induction ss1 as [|s ss1 IH]; intros n; cbn [polls_return app length].
  - tauto.
  - rewrite IH. replace (length ss1 + S n)%nat with (S (length ss1) + n)%nat by lia.
    tauto.
Qed.

(** *** The loop against the specified state machine *)

Lemma requests_app es1 es2 : requests (es1 ++ es2) = requests es1 ++ requests es2.
Proof. apply omap_app. Qed.

Lemma monitor_refines query_id headers ss : ∀ st,
  let poll := status_request w query_id headers in
  polls_return w poll (sent st) ss →
  ∃ es, io es = (Spec.poller poll ss).1
        ∧ ∀ fuel,
            monitor_query_status w (length ss + fuel) query_id headers st
            = match (Spec.poller poll ss).2 with
              | Some b => (Done b, after es (length (requests es)) st)
              | None =>
                  monitor_query_status w fuel query_id headers
                    (after es (length (requests es)) st)
              end.
Proof.
  induction ss as [|s ss IH]; intros st poll Hpolls.
  - exists []. split; [done|]. intros fuel. cbn. by rewrite after_nothing.
  - destruct Hpolls as [(r & d & Hnet & Hok & Hbody & Hd) Hrest].
    pose proof (monitor_on_status _ _ _ _ _ _ Hnet Hok Hbody Hd) as Hstep.
    fold poll in Hstep. cbn [Spec.poller length Nat.add].
    destruct (Spec.classify s).
    + destruct (IH (after [EHttp poll; status_line "Get Processing status" r;
                           waiting_line s; ESleep 10] 1 st) Hrest)
        as (es & Hio & Hrun).
      fold poll in Hio, Hrun.
      destruct (Spec.poller poll ss) as [spec_es verdict]. cbn [fst snd] in *.
      exists ([EHttp poll; status_line "Get Processing status" r;
               waiting_line s; ESleep 10] ++ es).
      split.
      * rewrite io_app, Hio. reflexivity.
      * intros fuel. rewrite Hstep, Hrun, after_after, requests_app, length_app.
        change (length (requests [EHttp poll; status_line "Get Processing status" r;
                                  waiting_line s; ESleep 10])) with 1%nat.
        by replace (length (requests es) + 1)%nat
          with (1 + length (requests es))%nat by lia.
    + exists [EHttp poll; status_line "Get Processing status" r;
              EPrint ("Query completed with status: " +:+ s)].
      split; [|intros fuel; rewrite Hstep]; reflexivity.
    + unfold failure_line in Hstep.
      case_bool_decide;
        [exists [EHttp poll; status_line "Get Processing status" r;
                 EPrint ("Query failed with status: " +:+ s)]
        |exists [EHttp poll; status_line "Get Processing status" r;
                 EPrint ("Error:Unknown status -" +:+ s)]];
        (split; [|intros fuel; rewrite Hstep]; reflexivity).
Qed.

(** Rewrite the next round of the loop in the goal with the reply that the
    hypotheses describe. *)
Ltac poll_with Hnet Hok Hbody Hd :=
  match goal with
  | |- context [monitor_query_status ?w (S _) ?q ?h ?s] =>
      rewrite (monitor_on_status q h s _ _ _ Hnet Hok Hbody Hd)
  end.

(** C1: the status poller is the state machine of section 4.3.  Run on
    polls that return the statuses [ss], the loop performs exactly the
    requests and 10-second sleeps of the specified machine, in order; where
    the machine has stopped with a verdict the loop has returned that
    boolean, and where the machine is still pending the loop is about to
    poll again.  In particular, on SUBMITTED, RUNNING, COMPLETED it sleeps
    exactly twice, once after each pending status, and returns true after
    the third poll. *)
Theorem poller_is_the_specified_state_machine query_id headers st :
  let poll := status_request w query_id headers in
  (∀ ss, polls_return w poll (sent st) ss →
     ∃ es, io es = (Spec.poller poll ss).1
           ∧ ∀ fuel,
               monitor_query_status w (length ss + fuel) query_id headers st
               = match (Spec.poller poll ss).2 with
                 | Some b => (Done b, after es (length (requests es)) st)
                 | None =>
                     monitor_query_status w fuel query_id headers
                       (after es (length (requests es)) st)
                 end)
  ∧ (polls_return w poll (sent st) ["SUBMITTED"; "RUNNING"; "COMPLETED"] →
     ∃ es, io es = [EHttp poll; ESleep 10; EHttp poll; ESleep 10; EHttp poll]
           ∧ sleeps es = [10; 10]
           ∧ ∀ fuel, (3 ≤ fuel)%nat →
               monitor_query_status w fuel query_id headers st
               = (Done true, after es 3 st)).
Proof.
  intros poll. split; [intros ss; apply monitor_refines|].
  intros ((r0 & d0 & Hnet0 & Hok0 & Hbody0 & Hd0)
          & (r1 & d1 & Hnet1 & Hok1 & Hbody1 & Hd1)
          & (r2 & d2 & Hnet2 & Hok2 & Hbody2 & Hd2) & _).
  eexists. split; [|split]; [| |intros fuel Hfuel].
  3: { destruct fuel as [|[|[|fuel]]]; [lia..|].
       poll_with Hnet0 Hok0 Hbody0 Hd0.
       change (Spec.classify "SUBMITTED") with Spec.Pending. cbv iota.
       poll_with Hnet1 Hok1 Hbody1 Hd1.
       change (Spec.classify "RUNNING") with Spec.Pending. cbv iota.
       poll_with Hnet2 Hok2 Hbody2 Hd2.
       change (Spec.classify "COMPLETED") with Spec.Succeeded. cbv iota.
       rewrite !after_after. reflexivity. }
  all: reflexivity.
Qed.

(** Membership of a string in a list of literals. *)
Ltac literal_lists :=
  rewrite ?elem_of_cons, ?elem_of_nil in *; intuition (subst; congruence).

(** C10: a successful (2xx) status response whose JSON object has no
    [status] field is read as the sentinel NO_STATUS_RETURNED, which takes
    the unknown-status branch: the poller returns false at once, after this
    one request and without sleeping, whatever fuel is left. *)
Theorem missing_status_is_terminal_failure query_id headers st r d fuel :
  let poll := status_request w query_id headers in
  net w (sent st) poll = Answer r →
  200 ≤ status_code r < 300 →
  text_json r = Some (JDict d) →
  d !! "status" = None →
  monitor_query_status w (S fuel) query_id headers st
  = (Done false,
     after [EHttp poll; status_line "Get Processing status" r;
            EPrint "Error:Unknown status -NO_STATUS_RETURNED"] 1 st).
Proof.
  intros poll Hnet Hcode%ok_2xx Hbody Hd.
  rewrite monitor_step. fold poll. by rewrite Hnet, Hcode, Hbody, Hd.
Qed.

(** C4: a status string outside the six known ones is terminal and makes
    the poller return false after that one poll, without sleeping; FAILED
    and CANCELLED give the same outcome, only the printed line differs. *)
Theorem unknown_status_is_failure query_id headers fuel :
  let poll := status_request w query_id headers in
  (∀ st r d s,
     net w (sent st) poll = Answer r → ok r = true →
     text_json r = Some (JDict d) → d !! "status" = Some (JStr s) →
     s ∉ ["SUBMITTED"; "IN_PROGRESS"; "RUNNING"; "COMPLETED"; "FAILED"; "CANCELLED"] →
     monitor_query_status w (S fuel) query_id headers st
     = (Done false,
        after [EHttp poll; status_line "Get Processing status" r;
               EPrint ("Error:Unknown status -" +:+ s)] 1 st))
  ∧ (∀ st r d s,
       net w (sent st) poll = Answer r → ok r = true →
       text_json r = Some (JDict d) → d !! "status" = Some (JStr s) →
       s ∈ ["FAILED"; "CANCELLED"] →
       monitor_query_status w (S fuel) query_id headers st
       = (Done false,
          after [EHttp poll; status_line "Get Processing status" r;
                 EPrint ("Query failed with status: " +:+ s)] 1 st)).
Proof.
  intros poll. split; intros st r d s Hnet Hok Hbody Hd Hs.
  - rewrite (monitor_on_status _ _ _ _ _ _ Hnet Hok Hbody Hd).
    unfold Spec.classify, failure_line.
    rewrite !bool_decide_eq_false_2; [done|literal_lists..].
  - rewrite (monitor_on_status _ _ _ _ _ _ Hnet Hok Hbody Hd).
    unfold Spec.classify, failure_line.
    rewrite (bool_decide_eq_true_2 (s ∈ ["FAILED"; "CANCELLED"])) by done.
    rewrite !bool_decide_eq_false_2; [done|literal_lists..].
Qed.

(** C6: on a successful (2xx) response whose JSON object lacks the expected
    field, each extracting operation returns the empty string and does not
    fail: [get_auth_token] for [access_token], [submit_query] for [queryId],
    [download_results] for [uri]. *)
Theorem missing_field_yields_empty_string st r d :
  200 ≤ status_code r < 300 →
  text_json r = Some (JDict d) →
  (net w (sent st) (login_request CLIENT_ID CLIENT_SECRET) = Answer r →
   d !! "access_token" = None →
   get_auth_token w CLIENT_ID CLIENT_SECRET st
   = (Done (JStr ""),
      after [EHttp (login_request CLIENT_ID CLIENT_SECRET);
             status_line "Get Authentication token" r] 1 st))
  ∧ (∀ token headers,
       net w (sent st) (submit_request headers) = Answer r →
       d !! "queryId" = None →
       submit_query w token headers st
       = (Done (JStr ""),
          after [EHttp (submit_request headers); status_line "Execute Query" r] 1 st))
  ∧ (∀ query_id headers,
       net w (sent st) (download_request w query_id headers) = Answer r →
       d !! "uri" = None →
       download_results w query_id headers st
       = (Done (JStr ""),
          after [EHttp (download_request w query_id headers);
                 status_line "Get URI for csv file" r] 1 st)).
Proof.
  intros Hcode%ok_2xx Hbody. split; [|split].
  - intros Hnet Hd. rewrite get_auth_token_run, Hnet. unfold fetched.
    by rewrite Hcode, Hbody, Hd.
  - intros token headers Hnet Hd. rewrite submit_query_run, Hnet. unfold fetched.
    by rewrite Hcode, Hbody, Hd.
  - intros query_id headers Hnet Hd. rewrite download_results_run, Hnet.
    unfold fetched. by rewrite Hcode, Hbody, Hd.
Qed.

(** *** Failure of a poll after some rounds *)

Lemma monitor_fails_after_rounds query_id headers st n r fuel :
  let poll := status_request w query_id headers in
  (∀ i, (i < n)%nat → keeps_polling (net w (i + sent st) poll) = true) →
  net w (n + sent st) poll = Answer r →
  ok r = false →
  (n < fuel)%nat →
  ∃ es, io es = mjoin (replicate n [EHttp poll; ESleep 10])
        ∧ monitor_query_status w fuel query_id headers st
          = (Raised (api_error r),
             after (es ++ [EHttp poll; status_line "Get Processing status" r;
                           error_line r]) (S n) st).
Proof.
  intros poll Hkeep Hnet Hok Hfuel.
  destruct (monitor_rounds query_id headers n st Hkeep) as (es & Hio & Hrun).
  exists es. split; [done|].
  replace fuel with (n + S (fuel - S n))%nat by lia.
  rewrite Hrun, monitor_step. fold poll. cbn [sent after].
  by rewrite Hnet, Hok, after_after.
Qed.

Lemma pending_polls_keep_polling poll n ps :
  Forall (λ p, is_pending p = true) ps →
  polls_return w poll n ps →
  ∀ i, (i < length ps)%nat → keeps_polling (net w (i + n) poll) = true.
Proof.
  intros Hps Hpolls i Hi.
  destruct (lookup_lt_is_Some_2 ps i Hi) as [p Hp].
  apply keeps_polling_carries. exists p. split.
  - by eapply polls_return_lookup.
  - rewrite Forall_forall in Hps. apply Hps. by eapply list_elem_of_lookup_2.
Qed.

(** C5: an HTTP failure of a status request is not retried.  After any
    number of pending rounds, a failed response makes the poller raise the
    RuntimeError of [check_api_response] right after the two lines that
    function prints, with no sleep and no further request, and the whole run
    ends with that error; a second poll happens only after a reply that
    carried a pending status. *)
Theorem polling_http_failure_aborts fuel st token st1 query_id st2 ps r :
  let headers := bearer_headers w token in
  let poll := status_request w query_id headers in
  let polling := after [submitted_line w query_id] 0 st2 in
  let error := RuntimeError ("API request failed: " +:+ reason r) in
  get_auth_token w CLIENT_ID CLIENT_SECRET st = (Done token, st1) →
  submit_query w token headers st1 = (Done query_id, st2) →
  Forall (λ p, is_pending p = true) ps →
  polls_return w poll (sent st2) ps →
  net w (length ps + sent st2) poll = Answer r →
  ok r = false →
  (length ps < fuel)%nat →
  (∃ es, io es = mjoin (replicate (length ps) [EHttp poll; ESleep 10])
         ∧ let stop := after (es ++ [EHttp poll;
                                     status_line "Get Processing status" r;
                                     error_line r]) (S (length ps)) polling in
           monitor_query_status w fuel query_id headers polling
           = (Raised error, stop)
           ∧ main w CLIENT_ID CLIENT_SECRET fuel st = (Raised error, stop))
  ∧ (∀ n s o s',
       monitor_query_status w n query_id headers s = (o, s') →
       (S (sent s) < sent s')%nat →
       ∃ p, carries "status" (JStr p) (net w (sent s) poll) ∧ is_pending p = true).
Proof.
  intros headers poll polling error Htoken Hsubmit Hps Hpolls Hnet Hok Hfuel. split.
  - destruct (monitor_fails_after_rounds query_id headers polling (length ps) r fuel)
      as (es & Hio & Hrun); try done.
    { by apply pending_polls_keep_polling. }
    exists es. split; [done|]. split; [done|].
    rewrite (main_polls _ _ _ _ _ _ Htoken Hsubmit). fold headers polling.
    by rewrite Hrun.
  - intros n s o s' Hrun Hsent. apply keeps_polling_carries.
    destruct (keeps_polling (net w (sent s) poll)) eqn:Hkeep; [done|exfalso].
    destruct n as [|n].
    + injection Hrun as _ <-. lia.
    + destruct (monitor_stops query_id headers s Hkeep) as (o' & es & _ & _ & Hstop).
      rewrite Hstop in Hrun. injection Hrun as _ <-. cbn in Hsent. lia.
Qed.

(** C2, as the code has it: a response whose status code is a client or
    server error (400 to 599, the codes for which [response.ok] is false)
    makes the operation that received it raise the RuntimeError that carries
    the reason phrase, and the run of [main] ends there with that error: the
    token request, the submission, and a status poll after any number of
    pending rounds. *)
Theorem error_response_aborts_the_run r fuel st :
  let error := RuntimeError ("API request failed: " +:+ reason r) in
  400 ≤ status_code r < 600 →
  (net w (sent st) (login_request CLIENT_ID CLIENT_SECRET) = Answer r →
   let stop := after [EHttp (login_request CLIENT_ID CLIENT_SECRET);
                      status_line "Get Authentication token" r; error_line r] 1 st in
   get_auth_token w CLIENT_ID CLIENT_SECRET st = (Raised error, stop)
   ∧ main w CLIENT_ID CLIENT_SECRET fuel st = (Raised error, stop))
  ∧ (∀ token st1,
       get_auth_token w CLIENT_ID CLIENT_SECRET st = (Done token, st1) →
       let headers := bearer_headers w token in
       net w (sent st1) (submit_request headers) = Answer r →
       let stop := after [EHttp (submit_request headers);
                          status_line "Execute Query" r; error_line r] 1 st1 in
       submit_query w token headers st1 = (Raised error, stop)
       ∧ main w CLIENT_ID CLIENT_SECRET fuel st = (Raised error, stop))
  ∧ (∀ token st1 query_id st2 ps,
       get_auth_token w CLIENT_ID CLIENT_SECRET st = (Done token, st1) →
       let headers := bearer_headers w token in
       let poll := status_request w query_id headers in
       let polling := after [submitted_line w query_id] 0 st2 in
       submit_query w token headers st1 = (Done query_id, st2) →
       Forall (λ p, is_pending p = true) ps →
       polls_return w poll (sent st2) ps →
       net w (length ps + sent st2) poll = Answer r →
       (length ps < fuel)%nat →
       ∃ es, io es = mjoin (replicate (length ps) [EHttp poll; ESleep 10])
             ∧ let stop := after (es ++ [EHttp poll;
                                         status_line "Get Processing status" r;
                                         error_line r]) (S (length ps)) polling in
               monitor_query_status w fuel query_id headers polling
               = (Raised error, stop)
               ∧ main w CLIENT_ID CLIENT_SECRET fuel st = (Raised error, stop)).
Proof.
  intros error Hok%ok_false. split; [|split].
  - intros Hnet stop.
    assert (get_auth_token w CLIENT_ID CLIENT_SECRET st = (Raised (api_error r), stop))
      as Htoken.
    { rewrite get_auth_token_run, Hnet. unfold fetched. by rewrite Hok. }
    split; [done|]. by apply main_token_fails.
  - intros token st1 Htoken headers Hnet stop.
    assert (submit_query w token headers st1 = (Raised (api_error r), stop))
      as Hsubmit.
    { rewrite submit_query_run, Hnet. unfold fetched. by rewrite Hok. }
    split; [done|]. by eapply main_submit_fails.
  - intros token st1 query_id st2 ps Htoken headers poll polling Hsubmit
      Hps Hpolls Hnet Hfuel.
    destruct (monitor_fails_after_rounds query_id headers polling (length ps) r fuel)
      as (es & Hio & Hrun); try done.
    { by apply pending_polls_keep_polling. }
    exists es. split; [done|]. split; [done|].
    rewrite (main_polls _ _ _ _ _ _ Htoken Hsubmit). fold headers polling.
    by rewrite Hrun.
Qed.

Lemma io_cons e es : io (e :: es) = if is_print e then io es else e :: io es.
Proof. unfold io. rewrite filter_cons. destruct e; by case_decide. Qed.

(** What is read off the effects other than console output is read off
    the whole trace as well. *)
Lemma omap_io {A} (f : Event → option A) es :
  (∀ line, f (EPrint line) = None) → omap f (io es) = omap f es.
Proof.
  intros Hprint. induction es as [|e es IH]; [done|].
  rewrite io_cons. destruct e; cbn [is_print omap list_omap];
    rewrite ?Hprint; by rewrite IH.
Qed.

Lemma writes_rounds n poll : writes (mjoin (replicate n [EHttp poll; ESleep 10])) = [].
Proof. induction n as [|n IH]; [done|exact IH]. Qed.

Lemma requests_rounds n poll :
  requests (mjoin (replicate n [EHttp poll; ESleep 10])) = replicate n poll.
Proof.
  induction n as [|n IH]; [done|].
  change (requests (mjoin (replicate (S n) [EHttp poll; ESleep 10])))
    with (poll :: requests (mjoin (replicate n [EHttp poll; ESleep 10]))).
  by rewrite IH.
Qed.

Lemma append_cancel s a b : s +:+ a = s +:+ b → a = b.
Proof. induction s as [|c s IH]; [done|]. intros [= H]. by apply IH. Qed.

Lemma status_is_not_download query_id headers :
  status_request w query_id headers ≠ download_request w query_id headers.
Proof.
  intros [= H]. unfold status_url, download_url in H.
  by do 2 apply append_cancel in H.
Qed.

(** C3: when the poller, after any number of pending rounds, observes
    FAILED or CANCELLED, it returns false, and [main] only prints its closing
    line: all the requests of the run after the submission are the status
    polls, none of them the request for the result location, and nothing is
    written to the file system. *)
Theorem failed_query_is_not_downloaded fuel st token st1 query_id st2 ps s :
  let headers := bearer_headers w token in
  let poll := status_request w query_id headers in
  let polling := after [submitted_line w query_id] 0 st2 in
  get_auth_token w CLIENT_ID CLIENT_SECRET st = (Done token, st1) →
  submit_query w token headers st1 = (Done query_id, st2) →
  Forall (λ p, is_pending p = true) ps →
  s ∈ ["FAILED"; "CANCELLED"] →
  polls_return w poll (sent st2) (ps ++ [s]) →
  (length ps < fuel)%nat →
  ∃ es, io es = mjoin (replicate (length ps) [EHttp poll; ESleep 10]) ++ [EHttp poll]
        ∧ requests es = replicate (S (length ps)) poll
        ∧ poll ≠ download_request w query_id headers
        ∧ writes es = []
        ∧ monitor_query_status w fuel query_id headers polling
          = (Done false, after es (S (length ps)) polling)
        ∧ main w CLIENT_ID CLIENT_SECRET fuel st
          = (Done tt,
             after (es ++ [EPrint "Query did not complete successfully"])
                   (S (length ps)) polling).
Proof.
  intros headers poll polling Htoken Hsubmit Hps Hs Hpolls Hfuel.
  apply polls_return_app in Hpolls as [Hpending Hlast].
  destruct Hlast as [(r & d & Hnet & Hok & Hbody & Hd) _].
  destruct (monitor_rounds query_id headers (length ps) polling)
    as (es & Hio & Hrun).
  { by apply pending_polls_keep_polling. }
  assert (monitor_query_status w fuel query_id headers polling
          = (Done false,
             after (es ++ [EHttp poll; status_line "Get Processing status" r;
                           EPrint ("Query failed with status: " +:+ s)])
                   (S (length ps)) polling)) as Hmonitor.
  { replace fuel with (length ps + S (fuel - S (length ps)))%nat by lia.
    rewrite Hrun.
    rewrite (monitor_on_status query_id headers _ r d s); try done.
    unfold Spec.classify, failure_line.
    rewrite (bool_decide_eq_true_2 (s ∈ ["FAILED"; "CANCELLED"])) by done.
    rewrite !bool_decide_eq_false_2; [by rewrite after_after|literal_lists..]. }
  eexists. split; [|split; [|split; [|split; [|split; [exact Hmonitor|]]]]].
  - rewrite io_app, Hio. reflexivity.
  - unfold requests. rewrite <- omap_io, io_app, Hio, omap_app by done.
    fold (requests (mjoin (replicate (length ps) [EHttp poll; ESleep 10]))).
    rewrite requests_rounds. symmetry. apply replicate_cons_app.
  - apply status_is_not_download.
  - unfold writes. rewrite <- omap_io, io_app, Hio, omap_app by done.
    fold (writes (mjoin (replicate (length ps) [EHttp poll; ESleep 10]))).
    by rewrite writes_rounds.
  - rewrite (main_polls _ _ _ _ _ _ Htoken Hsubmit). fold headers polling.
    by rewrite Hmonitor, after_after.
Qed.

(** *** Termination of the loop *)

Lemma first_failure (f : nat → bool) n :
  (∃ k, (k < n)%nat ∧ f k = false ∧ ∀ i, (i < k)%nat → f i = true)
  ∨ (∀ i, (i < n)%nat → f i = true).
Proof.
  induction n as [|n [(k & Hk & Hfk & Hbelow)|Hall]].
  - right. intros i Hi. lia.
  - left. exists k. split; [lia|done].
  - destruct (f n) eqn:Hfn.
    + right. intros i Hi. destruct (decide (i = n)) as [->|]; [done|].
      apply Hall. lia.
    + left. exists n. split; [lia|done].
Qed.

Lemma monitor_out_of_fuel query_id headers st fuel :
  let poll := status_request w query_id headers in
  (∀ i, (i < fuel)%nat → keeps_polling (net w (i + sent st) poll) = true) →
  ∃ es, io es = mjoin (replicate fuel [EHttp poll; ESleep 10])
        ∧ monitor_query_status w fuel query_id headers st
          = (Unfinished, after es fuel st).
Proof.
  intros poll Hkeep.
  destruct (monitor_rounds query_id headers fuel st Hkeep) as (es & Hio & Hrun).
  exists es. split; [done|]. specialize (Hrun 0%nat).
  by rewrite Nat.add_0_r in Hrun.
Qed.

Lemma monitor_stops_after_rounds query_id headers st n :
  let poll := status_request w query_id headers in
  (∀ i, (i < n)%nat → keeps_polling (net w (i + sent st) poll) = true) →
  keeps_polling (net w (n + sent st) poll) = false →
  ∃ o es, o ≠ Unfinished
          ∧ io es = mjoin (replicate n [EHttp poll; ESleep 10]) ++ [EHttp poll]
          ∧ ∀ fuel, (n < fuel)%nat →
              monitor_query_status w fuel query_id headers st
              = (o, after es (S n) st).
Proof.
  intros poll Hkeep Hstop.
  destruct (monitor_rounds query_id headers n st Hkeep) as (es & Hio & Hrun).
  destruct (monitor_stops query_id headers (after es n st) Hstop)
    as (o & es' & Ho & Hio' & Hlast).
  exists o, (es ++ es'). split; [done|]. split.
  - by rewrite io_app, Hio, Hio'.
  - intros fuel Hfuel. replace fuel with (n + S (fuel - S n))%nat by lia.
    by rewrite Hrun, Hlast, after_after.
Qed.

Lemma terminates_iff_some_reply_stops query_id headers st :
  let poll := status_request w query_id headers in
  terminates w query_id headers st
  ↔ ∃ k, keeps_polling (net w (k + sent st) poll) = false.
Proof.
  intros poll. split.
  - intros (fuel & o & st' & Hrun & Ho).
    destruct (first_failure (λ i, keeps_polling (net w (i + sent st) poll)) fuel)
      as [(k & _ & Hk & _)|Hall]; [by exists k|].
    destruct (monitor_out_of_fuel query_id headers st fuel Hall) as (es & _ & Hout).
    rewrite Hout in Hrun. by injection Hrun as <- _.
  - intros [k Hk].
    destruct (first_failure (λ i, keeps_polling (net w (i + sent st) poll)) (S k))
      as [(n & _ & Hn & Hbelow)|Hall].
    + destruct (monitor_stops_after_rounds query_id headers st n Hbelow Hn)
        as (o & es & Ho & _ & Hrun).
      exists (S n), o, (after es (S n) st). split; [apply Hrun; lia|done].
    + rewrite Hall in Hk by lia. done.
Qed.

Lemma keeps_polling_false_classified a :
  http_failure a ∨ (∃ s, carries "status" (JStr s) a) →
  keeps_polling a = false
  ↔ http_failure a ∨ ∃ s, carries "status" (JStr s) a ∧ is_pending s = false.
Proof.
  intros Hdomain. split.
  - intros Hstop. destruct Hdomain as [Hfail|[s Hs]]; [by left|right].
    exists s. split; [done|]. destruct (is_pending s) eqn:Hp; [|done].
    assert (keeps_polling a = true) as Hkeep
      by (apply keeps_polling_carries; by exists s).
    congruence.
  - unfold keeps_polling, status_read.
    intros [(r & -> & Hok)|(s & (r & d & -> & Hok & Hbody & Hd) & Hs)].
    + by rewrite Hok.
    + rewrite Hok, Hbody, Hd. cbn [default from_option id].
      by rewrite py_in_decide.
Qed.

(** C7: the polling loop is unbounded.  When every poll returns a pending
    status the loop never ends: whatever the fuel, it runs out of it having
    polled and slept that many times.  It ends exactly when some poll
    returns something else than a pending status, which over replies that
    are status responses or HTTP failures means a terminal status or an HTTP
    failure; and it then ends at the first such poll however many pending
    rounds come before it, so no attempt count or timeout cuts the wait
    short. *)
Theorem polling_is_unbounded query_id headers st :
  let poll := status_request w query_id headers in
  let reply i := net w (i + sent st) poll in
  let pending a := ∃ s, carries "status" (JStr s) a ∧ is_pending s = true in
  ((∀ i, pending (reply i)) →
     ¬ terminates w query_id headers st
     ∧ ∀ fuel, ∃ es,
         io es = mjoin (replicate fuel [EHttp poll; ESleep 10])
         ∧ monitor_query_status w fuel query_id headers st
           = (Unfinished, after es fuel st))
  ∧ (terminates w query_id headers st ↔ ∃ k, ¬ pending (reply k))
  ∧ ((∀ i, http_failure (reply i) ∨ ∃ s, carries "status" (JStr s) (reply i)) →
       (terminates w query_id headers st
        ↔ ∃ k, http_failure (reply k)
               ∨ ∃ s, carries "status" (JStr s) (reply k) ∧ is_pending s = false))
  ∧ (∀ n, (∀ i, (i < n)%nat → pending (reply i)) →
          ¬ pending (reply n) →
          (∀ fuel, (fuel ≤ n)%nat →
             (monitor_query_status w fuel query_id headers st).1 = Unfinished)
          ∧ ∃ o es, o ≠ Unfinished
              ∧ io es = mjoin (replicate n [EHttp poll; ESleep 10]) ++ [EHttp poll]
              ∧ ∀ fuel, (n < fuel)%nat →
                  monitor_query_status w fuel query_id headers st
                  = (o, after es (S n) st)).
Proof.
  intros poll reply pending.
  assert (∀ a, pending a ↔ keeps_polling a = true) as Hpending
    by (intros a; symmetry; apply keeps_polling_carries).
  assert (∀ a, ¬ pending a ↔ keeps_polling a = false) as Hstops
    by (intros a; rewrite Hpending; apply not_true_iff_false).
  split; [|split; [|split]].
  - intros Hkeep. split.
    + intros [k Hk]%terminates_iff_some_reply_stops. fold poll in Hk.
      apply Hstops in Hk. apply Hk, Hkeep.
    + intros fuel. apply monitor_out_of_fuel. intros i _. apply Hpending, Hkeep.
  - rewrite terminates_iff_some_reply_stops. fold poll.
    split; intros [k Hk]; exists k; by apply Hstops.
  - intros Hdomain. rewrite terminates_iff_some_reply_stops. fold poll.
    split; intros [k Hk]; exists k;
      by apply (keeps_polling_false_classified _ (Hdomain k)).
  - intros n Hkeep Hstop. split.
    + intros fuel Hfuel.
      destruct (monitor_out_of_fuel query_id headers st fuel) as (es & _ & ->); [|done].
      intros i Hi. apply Hpending, Hkeep. lia.
    + apply monitor_stops_after_rounds.
      * intros i Hi. apply Hpending, Hkeep, Hi.
      * by apply Hstops.
Qed.

(** C8: in a run where the token and the query id are returned, the poller
    returns true and the result location [u] is fetched, [save_results]
    reads the clock, sends a GET for [u] with no headers at all, and writes
    the content of the response, as it is, to the file named
    gardin_query_api_results_<clock reading>.csv; [main] then returns. *)
Theorem successful_run_saves_the_download
    fuel st token st1 query_id st2 st3 u st4 r :
  let headers := bearer_headers w token in
  let fetch := mkRequest GET u ∅ NoData in
  let name := "gardin_query_api_results_" +:+ str_int (clock w (trace st4)) +:+ ".csv" in
  get_auth_token w CLIENT_ID CLIENT_SECRET st = (Done token, st1) →
  submit_query w token headers st1 = (Done query_id, st2) →
  monitor_query_status w fuel query_id headers
    (after [submitted_line w query_id] 0 st2) = (Done true, st3) →
  download_results w query_id headers st3 = (Done (JStr u), st4) →
  net w (sent st4) fetch = Answer r →
  main w CLIENT_ID CLIENT_SECRET fuel st
  = (Done tt,
     mkState (trace st4 ++ [EPrint ("Downloading csv file to " +:+ name);
                            EHttp fetch; EWrite name (content r);
                            EPrint "Download Completed"])
             (S (sent st4)) (<[name := content r]> (fs st4)))
  ∧ rq_headers fetch !! "Authorization" = None.
Proof.
  intros headers fetch name Htoken Hsubmit Hmonitor Hfetch Hnet. split; [|done].
  rewrite (main_polls _ _ _ _ _ _ Htoken Hsubmit). fold headers.
  rewrite Hmonitor, bind_run, Hfetch, save_results_run. cbn [fmt]. fold fetch.
  by rewrite Hnet.
Qed.

(** C9: the Authorization header that [get_auth_token] sends is "Basic "
    followed by a base64 text that decodes back to exactly
    <client_id>:<client_secret>. *)
Theorem basic_auth_header_round_trip st :
  ∃ enc es o,
    get_auth_token w CLIENT_ID CLIENT_SECRET st
    = (o, after (EHttp (login_request CLIENT_ID CLIENT_SECRET) :: es) 1 st)
    ∧ rq_headers (login_request CLIENT_ID CLIENT_SECRET) !! "Authorization"
      = Some ("Basic " +:+ enc)
    ∧ Base64.b64decode enc = Some (CLIENT_ID +:+ ":" +:+ CLIENT_SECRET).
Proof.
  exists (Base64.b64encode (CLIENT_ID +:+ ":" +:+ CLIENT_SECRET)).
  assert (∃ es o, get_auth_token w CLIENT_ID CLIENT_SECRET st
                  = (o, after (EHttp (login_request CLIENT_ID CLIENT_SECRET) :: es) 1 st))
    as (es & o & Hrun).
  { rewrite get_auth_token_run. unfold fetched.
    destruct (net w (sent st) _) as [r|e]; [|by eauto].
    destruct (ok r); [|by eauto].
    destruct (text_json r) as [[]|]; by eauto. }
  exists es, o. split; [done|]. split.
  - unfold login_request, auth_headers. cbn [rq_headers]. apply lookup_insert_eq.
  - apply b64decode_b64encode.
Qed.

(** ** Further properties of the client *)

(** *** The shape of every run of the polling loop *)

Lemma monitor_verdict query_id headers st fuel b st' :
  let poll := status_request w query_id headers in
  keeps_polling (net w (sent st) poll) = false →
  monitor_query_status w (S fuel) query_id headers st = (Done b, st') →
  ∃ r d, net w (sent st) poll = Answer r ∧ ok r = true
         ∧ text_json r = Some (JDict d)
         ∧ b = py_eq_str (default (JStr "NO_STATUS_RETURNED") (d !! "status"))
                 "COMPLETED".
Proof.
  intros poll Hstop. unfold keeps_polling, status_read in Hstop.
  rewrite monitor_step. fold poll.
  destruct (net w (sent st) poll) as [r|e]; [|done].
  destruct (ok r) eqn:Hok; [|done].
  destruct (text_json r) as [[| | | | | |d]|] eqn:Hbody; try done.
  cbv zeta. rewrite Hstop.
  destruct (py_eq_str _ "COMPLETED") eqn:Hdone.
  - intros [= <- _]. exists r, d. by rewrite Hdone.
  - destruct (py_in _ ["FAILED"; "CANCELLED"]); intros [= <- _];
      exists r, d; by rewrite Hdone.
Qed.

Lemma monitor_shape query_id headers fuel st :
  let poll := status_request w query_id headers in
  (∃ es, io es = rounds poll fuel
         ∧ monitor_query_status w fuel query_id headers st
           = (Unfinished, after es fuel st))
  ∨ (∃ k o es,
       (k < fuel)%nat ∧ o ≠ Unfinished
       ∧ io es = rounds poll k ++ [EHttp poll]
       ∧ monitor_query_status w fuel query_id headers st = (o, after es (S k) st)
       ∧ (∀ i, (i < k)%nat → keeps_polling (net w (i + sent st) poll) = true)
       ∧ keeps_polling (net w (k + sent st) poll) = false).
Proof.
  intros poll.
  destruct (first_failure (λ i, keeps_polling (net w (i + sent st) poll)) fuel)
    as [(k & Hk & Hstop & Hkeep)|Hkeep].
  - right.
    destruct (monitor_stops_after_rounds query_id headers st k Hkeep Hstop)
      as (o & es & Ho & Hio & Hrun).
    exists k, o, es. repeat split; try done. by apply Hrun.
  - left. by apply monitor_out_of_fuel.
Qed.

(** X1: whatever the server answers and however long the loop runs, the
    poller only ever sends the one status request, sleeps exactly 10 seconds
    after each poll that it follows with another, and writes no file: its
    requests and sleeps are [k] rounds of poll-then-sleep, followed by one
    last poll unless it is still looping. *)
Theorem poller_paces_its_polls query_id headers fuel st :
  let poll := status_request w query_id headers in
  ∃ o es k,
    monitor_query_status w fuel query_id headers st
    = (o, after es (length (requests es)) st)
    ∧ (k ≤ fuel)%nat
    ∧ io es = rounds poll k ++ match o with Unfinished => [] | _ => [EHttp poll] end
    ∧ (o = Unfinished ↔ k = fuel).
Proof.
  intros poll.
  destruct (monitor_shape query_id headers fuel st)
    as [(es & Hio & Hrun)|(k & o & es & Hk & Ho & Hio & Hrun & _)].
  - exists Unfinished, es, fuel. rewrite app_nil_r. repeat split; try done.
    unfold requests. rewrite <- omap_io, Hio by done.
    fold (requests (rounds poll fuel)). unfold rounds.
    by rewrite requests_rounds, length_replicate.
  - exists o, es, k.
    assert (match o with Unfinished => [] | _ => [EHttp poll] end = [EHttp poll])
      as -> by by destruct o.
    repeat split; try done; try lia.
    unfold requests. rewrite <- omap_io, Hio, omap_app by done.
    fold (requests (rounds poll k)). unfold rounds.
    rewrite requests_rounds, length_app, length_replicate. cbn [omap list_omap length].
    by rewrite Nat.add_comm.
Qed.

Lemma poller_last_poll query_id headers fuel st b st' :
  let poll := status_request w query_id headers in
  monitor_query_status w fuel query_id headers st = (Done b, st') →
  ∃ k r d,
    sent st' = (S k + sent st)%nat
    ∧ (k < fuel)%nat
    ∧ (∀ i, (i < k)%nat →
         ∃ s, carries "status" (JStr s) (net w (i + sent st) poll)
              ∧ is_pending s = true)
    ∧ net w (k + sent st) poll = Answer r
    ∧ ok r = true
    ∧ text_json r = Some (JDict d)
    ∧ (b = true ↔ d !! "status" = Some (JStr "COMPLETED")).
Proof.
  intros poll Hrun.
  destruct (monitor_shape query_id headers fuel st)
    as [(es & _ & Hout)|(k & o & es & Hk & _ & _ & Hstop & Hkeep & Hlast)].
  { rewrite Hout in Hrun. discriminate Hrun. }
  destruct (monitor_rounds query_id headers k st Hkeep) as (es' & _ & Hrounds).
  replace fuel with (k + S (fuel - S k))%nat in Hrun, Hstop by lia.
  rewrite Hstop in Hrun. injection Hrun as -> <-.
  rewrite Hrounds in Hstop.
  destruct (monitor_verdict query_id headers (after es' k st) (fuel - S k) b _
              Hlast Hstop) as (r & d & Hnet & Hok & Hbody & Hb).
  exists k, r, d. subst b. repeat split; try done.
  - intros i Hi. by apply keeps_polling_carries, Hkeep.
  - destruct (d !! "status") as [[| | | |s| |]|]; try done.
    cbn [default from_option id]. rewrite py_eq_str_decide.
    intros Hs%bool_decide_eq_true. by subst.
  - by intros ->.
Qed.

(** X2: when the poller returns a boolean, every poll before the last
    carried a pending status, the last one was answered by a response that
    passed the check with a JSON object, and the boolean is true exactly
    when the [status] of that object is the string COMPLETED. *)
Theorem poller_verdict_is_the_last_status query_id headers fuel st b st' :
  let poll := status_request w query_id headers in
  monitor_query_status w fuel query_id headers st = (Done b, st') →
  ∃ k r d,
    sent st' = (S k + sent st)%nat
    ∧ (k < fuel)%nat
    ∧ (∀ i, (i < k)%nat →
         ∃ s, carries "status" (JStr s) (net w (i + sent st) poll)
              ∧ is_pending s = true)
    ∧ net w (k + sent st) poll = Answer r
    ∧ ok r = true
    ∧ text_json r = Some (JDict d)
    ∧ (b = true ↔ d !! "status" = Some (JStr "COMPLETED")).
Proof. apply poller_last_poll. Qed.

(** *** The shape of every run of [main] *)

Lemma fetched_cases rq action key st a :
  (∃ r d, a = Answer r ∧ ok r = true ∧ text_json r = Some (JDict d)
          ∧ fetched rq action key st a
            = (Done (default (JStr "") (d !! key)),
               after [EHttp rq; status_line action r] 1 st))
  ∨ (∃ e es, io es = [EHttp rq]
             ∧ fetched rq action key st a = (Raised e, after es 1 st)).
Proof.
  unfold fetched. destruct a as [r|e].
  2: { right. eexists _, _. split; cycle 1; reflexivity. }
  destruct (ok r) eqn:Hok.
  2: { right. eexists _, _. split; cycle 1; reflexivity. }
  destruct (text_json r) as [[| | | | | |d]|] eqn:Hbody;
    try (right; eexists _, _; split; cycle 1; reflexivity).
  left. by exists r, d.
Qed.

Lemma requests_of_io es : requests es = requests (io es).
Proof. symmetry. by apply omap_io. Qed.

Lemma writes_of_io es : writes es = writes (io es).
Proof. symmetry. by apply omap_io. Qed.

Lemma requests_after_rounds poll k l :
  length (requests (rounds poll k ++ l)) = (k + length (requests l))%nat.
Proof.
  rewrite requests_app, length_app. unfold rounds.
  by rewrite requests_rounds, length_replicate.
Qed.

Lemma writes_after_rounds poll k l : writes (rounds poll k ++ l) = writes l.
Proof.
  unfold writes. rewrite omap_app. fold (writes (rounds poll k)). unfold rounds.
  by rewrite writes_rounds.
Qed.

Lemma writes_two_requests a b l : writes (EHttp a :: EHttp b :: l) = writes l.
Proof. reflexivity. Qed.

Lemma requests_two_requests a b l :
  length (requests (EHttp a :: EHttp b :: l)) = S (S (length (requests l))).
Proof. reflexivity. Qed.

Lemma writes_app es1 es2 : writes (es1 ++ es2) = writes es1 ++ writes es2.
Proof. apply omap_app. Qed.

Lemma console_app es1 es2 : console (es1 ++ es2) = console es1 ++ console es2.
Proof. apply omap_app. Qed.

(** The run from the first poll on, once the token and the query id have
    been returned. *)
(** The effects [es] begin with the given ones. *)
Ltac starts :=
  repeat match goal with x := _ : list Event |- _ => progress unfold x end;
  repeat first [reflexivity | apply prefix_app_r].

Lemma main_after_submission fuel st token query_id es1 es2 :
  let login := login_request CLIENT_ID CLIENT_SECRET in
  let headers := bearer_headers w token in
  let submit := submit_request headers in
  io es1 = [EHttp login] →
  get_auth_token w CLIENT_ID CLIENT_SECRET st = (Done token, after es1 1 st) →
  io es2 = [EHttp submit] →
  submit_query w token headers (after es1 1 st)
  = (Done query_id, after (es1 ++ es2) (1 + 1) st) →
  ∃ o st' es k uri now body,
    main w CLIENT_ID CLIENT_SECRET fuel st = (o, st')
    ∧ (es1 ++ es2) `prefix_of` es
    ∧ run_summary w CLIENT_ID CLIENT_SECRET st o st' es token query_id k uri now body.
Proof.
  intros login headers submit Hio1 Htoken Hio2 Hsubmit. unfold run_summary.
  set (es2' := es1 ++ es2) in *.
  set (poll := status_request w query_id headers).
  pose proof (main_polls fuel _ _ _ _ _ Htoken Hsubmit) as Hmain.
  fold headers in Hmain. rewrite after_after in Hmain.
  set (es3 := es2' ++ [submitted_line w query_id]) in *.
  assert (io es3 = [EHttp login; EHttp submit]) as Hio3.
  { unfold es3, es2'. by rewrite !io_app, Hio1, Hio2. }
  destruct (monitor_shape query_id headers fuel (after es3 (0 + (1 + 1)) st))
    as [(es & Hio & Hrun)|(k & o & es & Hk & Ho & Hio & Hrun & Hkeep & Hlast)];
    fold poll in Hio, Hrun; rewrite Hrun, after_after in Hmain.
  { (* the loop is still running *)
    exists Unfinished, (after (es3 ++ es) (fuel + (0 + (1 + 1))) st), (es3 ++ es),
      fuel, JNull, 0, "".
    split; [done|]. split; [starts|]. split; [done|].
    split.
    { rewrite requests_of_io, io_app, Hio3, Hio. cbn [app].
      rewrite requests_two_requests, <- (app_nil_r (rounds poll fuel)).
      rewrite requests_after_rounds. cbn. lia. }
    split.
    { rewrite io_app, Hio3, Hio. unfold run_io. fold headers poll submit login.
      apply prefix_app, prefix_app_r. done. }
    right. split; [done|]. split; [|done].
    rewrite writes_of_io, io_app, Hio3, Hio. cbn [app].
    rewrite writes_two_requests. apply writes_rounds. }
  assert (length (requests (es3 ++ es)) = S k + (0 + (1 + 1)))%nat as Hcount.
  { rewrite requests_of_io, io_app, Hio3, Hio. cbn [app].
    rewrite requests_two_requests, requests_after_rounds. cbn. lia. }
  assert (writes (es3 ++ es) = []) as Hwrites.
  { rewrite writes_of_io, io_app, Hio3, Hio. cbn [app].
    by rewrite writes_two_requests, writes_after_rounds. }
  assert (io (es3 ++ es) `prefix_of`
            run_io w CLIENT_ID CLIENT_SECRET token query_id k JNull 0 "") as Hprefix.
  { rewrite io_app, Hio3, Hio. unfold run_io. fold headers poll submit login.
    apply prefix_app, prefix_app. by apply prefix_cons, prefix_nil. }
  destruct o as [[|]|e|]; [| | |done].
  3: { (* the loop raises *)
    exists (Raised e), (after (es3 ++ es) (S k + (0 + (1 + 1))) st), (es3 ++ es),
      k, JNull, 0, "".
    split; [done|]. split; [starts|]. split; [done|]. split; [by rewrite Hcount|].
    split; [done|]. right. by repeat split. }
  2: { (* the query did not complete *)
    rewrite after_after in Hmain.
    exists (Done tt),
      (after ((es3 ++ es) ++ [EPrint "Query did not complete successfully"])
             (0 + (S k + (0 + (1 + 1)))) st),
      ((es3 ++ es) ++ [EPrint "Query did not complete successfully"]),
      k, JNull, 0, "".
    split; [done|]. split; [starts|]. split; [done|].
    split; [by rewrite requests_app, app_nil_r, Hcount|].
    split; [by rewrite io_app, app_nil_r|].
    right. split; [done|].
    split; [by rewrite (writes_of_io (_ ++ [_])), io_app, app_nil_r, <- writes_of_io|].
    intros _. split; [rewrite console_app; apply last_snoc|].
    split; [by rewrite io_app, app_nil_r, io_app, Hio3, Hio|].
    intros Hcompleted.
    destruct (poller_last_poll query_id headers fuel
                (after es3 (0 + (1 + 1)) st) _ _ Hrun)
      as (k' & r & d & Hk' & _ & _ & Hnet & _ & Hbody & Hb).
    cbn [sent after] in Hk', Hnet. assert (k' = k) as -> by lia.
    replace (k + (0 + (1 + 1) + sent st))%nat with (k + 2 + sent st)%nat
      in Hnet by lia.
    destruct Hcompleted as (r' & d' & Hnet' & _ & Hbody' & Hd').
    pose proof (eq_trans (eq_sym Hnet') Hnet) as [= ->].
    pose proof (eq_trans (eq_sym Hbody') Hbody) as [= ->].
    by apply Hb in Hd'. }
  (* the query completed *)
  assert (carries "status" (JStr "COMPLETED") (net w (k + 2 + sent st) poll))
    as Hcompleted.
  { destruct (poller_last_poll query_id headers fuel
                (after es3 (0 + (1 + 1)) st) _ _ Hrun)
      as (k' & r & d & Hk' & _ & _ & Hnet & Hok & Hbody & Hb).
    cbn [sent after] in Hk', Hnet. assert (k' = k) as -> by lia.
    replace (k + (0 + (1 + 1) + sent st))%nat with (k + 2 + sent st)%nat
      in Hnet by lia.
    exists r, d. repeat split; try done. by apply Hb. }
  set (download := download_request w query_id headers).
  rewrite bind_run in Hmain.
  pose proof (download_results_run query_id headers
                (after (es3 ++ es) (S k + (0 + (1 + 1))) st)) as Hdownload.
  cbv zeta in Hdownload. fold download in Hdownload.
  destruct (fetched_cases download "Get URI for csv file" "uri"
              (after (es3 ++ es) (S k + (0 + (1 + 1))) st)
              (net w (sent (after (es3 ++ es) (S k + (0 + (1 + 1))) st)) download))
    as [(r4 & d4 & _ & _ & _ & H4)|(e & es4 & Hio4 & H4)];
    rewrite H4, after_after in Hdownload; rewrite Hdownload in Hmain; clear H4.
  2: { (* the request for the result location fails *)
    exists (Raised e), (after ((es3 ++ es) ++ es4) (1 + (S k + (0 + (1 + 1)))) st),
      ((es3 ++ es) ++ es4), k, JNull, 0, "".
    split; [done|]. split; [starts|]. split; [done|].
    split; [rewrite requests_app, (requests_of_io es4), Hio4, length_app, Hcount;
            cbn; lia|].
    split.
    { rewrite io_app, Hio4, io_app, Hio3, Hio. unfold run_io.
      fold headers poll submit login download. rewrite <- !app_assoc.
      apply prefix_app, prefix_app. by apply prefix_cons, prefix_cons, prefix_nil. }
    right. split; [done|]. split; [|done].
    by rewrite writes_app, Hwrites, (writes_of_io es4), Hio4. }
  set (uri := default (JStr "") (d4 !! "uri")) in *.
  set (es4 := (es3 ++ es) ++ [EHttp download; status_line "Get URI for csv file" r4])
    in *.
  assert (io es4 = [EHttp login; EHttp submit] ++ rounds poll k
                   ++ [EHttp poll; EHttp download]) as Hio5.
  { unfold es4. rewrite io_app, io_app, Hio3, Hio, <- !app_assoc. done. }
  set (fetch := mkRequest GET (fmt w uri) ∅ NoData).
  set (now := clock w (trace st ++ es4)).
  rewrite save_results_run in Hmain. fold fetch in Hmain.
  cbn [sent trace fs after] in Hmain. fold now in Hmain.
  assert ((1 + (S k + (0 + (1 + 1))) + sent st)%nat = (k + 4 + sent st)%nat)
    as Hfour by lia.
  rewrite Hfour in Hmain. clear Hfour.
  destruct (net w (k + 4 + sent st) fetch) as [r|e] eqn:Hnet.
  - (* the download is saved *)
    eexists (Done tt), _,
      (es4 ++ [EPrint ("Downloading csv file to " +:+ csv_name now); EHttp fetch;
               EWrite (csv_name now) (content r); EPrint "Download Completed"]),
      k, uri, now, (content r).
    split; [exact Hmain|]. split; [starts|]. split; [cbn [trace]; by rewrite app_assoc|].
    assert (io (es4 ++ [EPrint ("Downloading csv file to " +:+ csv_name now);
                        EHttp fetch; EWrite (csv_name now) (content r);
                        EPrint "Download Completed"])
            = run_io w CLIENT_ID CLIENT_SECRET token query_id k uri now (content r))
      as Hall.
    { rewrite io_app, Hio5. unfold run_io. fold headers poll submit login download fetch.
      by rewrite <- !app_assoc. }
    split.
    { rewrite requests_of_io, Hall. unfold run_io. cbn [app].
      rewrite requests_two_requests, requests_after_rounds. cbn. lia. }
    split; [by rewrite Hall|].
    left. split; [done|]. split; [done|]. split; [done|].
    split; [by rewrite console_app, last_app|].
    split; [done|]. by exists r.
  - (* the download fails *)
    eexists (Raised e), _,
      (es4 ++ [EPrint ("Downloading csv file to " +:+ csv_name now); EHttp fetch]),
      k, uri, now, "".
    split; [exact Hmain|]. split; [starts|]. split; [cbn [trace after]; by rewrite app_assoc|].
    assert (io (es4 ++ [EPrint ("Downloading csv file to " +:+ csv_name now);
                        EHttp fetch])
            = [EHttp login; EHttp submit] ++ rounds poll k
              ++ [EHttp poll; EHttp download; EHttp fetch]) as Hall.
    { rewrite io_app, Hio5. by rewrite <- !app_assoc. }
    split.
    { rewrite requests_of_io, Hall. cbn [app].
      rewrite requests_two_requests, requests_after_rounds. cbn. lia. }
    split.
    { rewrite Hall. unfold run_io. fold headers poll submit login download fetch.
      apply prefix_app, prefix_app. do 3 apply prefix_cons. apply prefix_nil. }
    right. split; [done|]. split; [|done].
    rewrite writes_of_io, Hall. cbn [app].
    by rewrite writes_two_requests, writes_after_rounds.
Qed.

(** Every run of [main], however it ends. *)
Lemma main_cases fuel st :
  ∃ o st' es token query_id k uri now body,
    main w CLIENT_ID CLIENT_SECRET fuel st = (o, st')
    ∧ run_summary w CLIENT_ID CLIENT_SECRET st o st' es token query_id k uri now body.
Proof.
  set (login := login_request CLIENT_ID CLIENT_SECRET).
  pose proof (get_auth_token_run st) as Htoken. cbv zeta in Htoken. fold login in Htoken.
  destruct (fetched_cases login "Get Authentication token" "access_token" st
              (net w (sent st) login))
    as [(r1 & d1 & _ & _ & _ & H1)|(e & es1 & Hio1 & H1)];
    rewrite H1 in Htoken; clear H1.
  2: { (* the token request fails *)
    exists (Raised e), (after es1 1 st), es1, JNull, JNull, 0%nat, JNull, 0, "".
    split; [by apply main_token_fails|]. split; [done|].
    split; [by rewrite requests_of_io, Hio1|].
    split; [rewrite Hio1; by apply prefix_cons, prefix_nil|].
    right. split; [done|]. split; [by rewrite writes_of_io, Hio1|]. done. }
  set (token := default (JStr "") (d1 !! "access_token")) in *.
  set (headers := bearer_headers w token).
  set (es1 := [EHttp login; status_line "Get Authentication token" r1]) in *.
  set (submit := submit_request headers).
  pose proof (submit_query_run token headers (after es1 1 st)) as Hsubmit.
  cbv zeta in Hsubmit. fold submit in Hsubmit.
  destruct (fetched_cases submit "Execute Query" "queryId" (after es1 1 st)
              (net w (sent (after es1 1 st)) submit))
    as [(r2 & d2 & _ & _ & _ & H2)|(e & es2 & Hio2 & H2)];
    rewrite H2, after_after in Hsubmit; clear H2.
  2: { (* the submission fails *)
    exists (Raised e), (after (es1 ++ es2) (1 + 1) st), (es1 ++ es2),
      token, JNull, 0%nat, JNull, 0, "".
    split; [by eapply main_submit_fails|]. split; [done|].
    split; [by rewrite requests_of_io, io_app, Hio2|].
    split; [rewrite io_app, Hio2; by apply prefix_cons, prefix_cons, prefix_nil|].
    right. split; [done|]. split; [by rewrite writes_of_io, io_app, Hio2|]. done. }
  destruct (main_after_submission fuel st token
              (default (JStr "") (d2 !! "queryId")) es1
              [EHttp submit; status_line "Execute Query" r2])
    as (o & st' & es & k & uri & now & body & Hmain & _ & Hsummary); try done.
  by exists o, st', es, token, (default (JStr "") (d2 !! "queryId")), k, uri, now, body.
Qed.


(** X4: every run of [main] extends the trace, counts each request it sends
    exactly once, and follows one fixed order as far as it gets: the token
    request, the submission, rounds of poll and 10-second sleep, the last
    poll, the request for the result location, the download, the write.  So
    it never polls before it has submitted, never asks for the result
    location before the loop has ended, and never writes before the
    download. *)
Theorem run_follows_the_fixed_order fuel st o st' :
  main w CLIENT_ID CLIENT_SECRET fuel st = (o, st') →
  ∃ es token query_id k uri now body,
    trace st' = trace st ++ es
    ∧ sent st' = (length (requests es) + sent st)%nat
    ∧ io es `prefix_of`
        run_io w CLIENT_ID CLIENT_SECRET token query_id k uri now body.
Proof.
  intros Hmain.
  destruct (main_cases fuel st)
    as (o0 & st0 & es & token & query_id & k & uri & now & body & Hmain0 & Hsummary).
  rewrite Hmain in Hmain0. injection Hmain0 as <- <-.
  destruct Hsummary as (Htrace & Hsent & Hprefix & _).
  by exists es, token, query_id, k, uri, now, body.
Qed.

Lemma io_prefix es1 es2 : es1 `prefix_of` es2 → io es1 `prefix_of` io es2.
Proof. intros [rest ->]. rewrite io_app. by apply prefix_app_r. Qed.

Lemma bearer_authorization token :
  bearer_headers w token !! "Authorization" = Some ("Bearer " +:+ fmt w token).
Proof.
  unfold bearer_headers.
  rewrite lookup_insert_ne by done. rewrite lookup_insert_ne by done.
  apply lookup_insert_eq.
Qed.

(** X5: the values the server returns are the ones the run goes on with.
    When the token response carries [token] under [access_token] and the
    response to the submission carries [query_id] under [queryId], the run
    sends the submission and every later API request with the header
    Authorization: Bearer <token>, and polls and fetches the result location
    under the URLs built from <query_id>. *)
Theorem run_uses_the_returned_token_and_query_id fuel st token query_id o st' :
  let login := login_request CLIENT_ID CLIENT_SECRET in
  let headers := bearer_headers w token in
  let poll := status_request w query_id headers in
  carries "access_token" token (net w (sent st) login) →
  carries "queryId" query_id (net w (S (sent st)) (submit_request headers)) →
  main w CLIENT_ID CLIENT_SECRET fuel st = (o, st') →
  ∃ es k uri now body,
    trace st' = trace st ++ es
    ∧ [EHttp login; EHttp (submit_request headers)] `prefix_of` io es
    ∧ io es `prefix_of`
        run_io w CLIENT_ID CLIENT_SECRET token query_id k uri now body
    ∧ headers !! "Authorization" = Some ("Bearer " +:+ fmt w token)
    ∧ rq_url poll
      = "https://api.gardin.ag/v1/query/" +:+ fmt w query_id +:+ "/status/"
    ∧ rq_url (download_request w query_id headers)
      = "https://api.gardin.ag/v1/query/" +:+ fmt w query_id +:+ "/result/download".
Proof.
  intros login headers poll (r1 & d1 & Hnet1 & Hok1 & Hbody1 & Hd1)
    (r2 & d2 & Hnet2 & Hok2 & Hbody2 & Hd2) Hmain.
  set (es1 := [EHttp login; status_line "Get Authentication token" r1]).
  set (es2 := [EHttp (submit_request headers); status_line "Execute Query" r2]).
  assert (get_auth_token w CLIENT_ID CLIENT_SECRET st = (Done token, after es1 1 st))
    as Htoken.
  { rewrite get_auth_token_run. fold login. rewrite Hnet1. unfold fetched.
    by rewrite Hok1, Hbody1, Hd1. }
  assert (submit_query w token headers (after es1 1 st)
          = (Done query_id, after (es1 ++ es2) (1 + 1) st)) as Hsubmit.
  { rewrite submit_query_run. cbv zeta.
    change (sent (after es1 1 st)) with (S (sent st)). rewrite Hnet2. unfold fetched.
    by rewrite Hok2, Hbody2, Hd2, after_after. }
  destruct (main_after_submission fuel st token query_id es1 es2)
    as (o0 & st0 & es & k & uri & now & body & Hmain0 & Hstarts & Hsummary);
    try done.
  rewrite Hmain in Hmain0. injection Hmain0 as <- <-.
  destruct Hsummary as (Htrace & _ & Hprefix & _).
  exists es, k, uri, now, body. split; [done|]. split.
  { by apply io_prefix in Hstarts. }
  split; [done|]. split; [apply bearer_authorization|]. done.
Qed.

(** X6: a normal return of [main] does not tell success from failure.  A
    run that returns has printed, as its last line, either Download
    Completed, having written the one file, or Query did not complete
    successfully, having written nothing after a last poll that was not
    answered COMPLETED; in both cases [main] returns the same value. *)
Theorem normal_return_has_two_endings fuel st st' :
  main w CLIENT_ID CLIENT_SECRET fuel st = (Done tt, st') →
  ∃ es, trace st' = trace st ++ es
    ∧ ((last (console es) = Some "Download Completed"
        ∧ ∃ now body, writes es = [(csv_name now, body)]
                      ∧ fs st' = <[csv_name now := body]> (fs st))
       ∨ (last (console es) = Some "Query did not complete successfully"
          ∧ writes es = []
          ∧ fs st' = fs st
          ∧ ∃ token query_id k,
              length (requests es) = (k + 3)%nat
              ∧ ¬ carries "status" (JStr "COMPLETED")
                    (net w (k + 2 + sent st)
                       (status_request w query_id (bearer_headers w token))))).
Proof.
  intros Hmain.
  destruct (main_cases fuel st)
    as (o0 & st0 & es & token & query_id & k & uri & now & body & Hmain0 & Hsummary).
  rewrite Hmain in Hmain0. injection Hmain0 as <- <-.
  destruct Hsummary as (Htrace & _ & _ & [(_ & Hio & Hfs & Hlast & _)
                                         |(Hfs & Hwrites & Hdone)]).
  - exists es. split; [done|]. left. split; [done|]. exists now, body.
    split; [|done]. rewrite writes_of_io, Hio. unfold run_io. cbn [app].
    by rewrite writes_two_requests, writes_after_rounds.
  - destruct (Hdone eq_refl) as (Hlast & Hio & Hnot).
    exists es. split; [done|]. right. repeat split; try done.
    exists token, query_id, k. split; [|done].
    rewrite requests_of_io, Hio. cbn [app].
    rewrite requests_two_requests, requests_after_rounds. cbn. lia.
Qed.

(** *** Failures of single operations *)

(** X7: a response that passes the status check but whose body is not a
    JSON object makes every reading operation raise, after the one line of
    the check and with nothing retried: JSONDecodeError when the body is not
    JSON at all, AttributeError when it is JSON of another kind (an array, a
    string, a number, null), for which there is no [get]. *)
Theorem unreadable_body_raises r e st :
  ok r = true →
  (text_json r = None ∧ e = JSONDecodeError)
  ∨ (∃ v, text_json r = Some v ∧ (∀ d, v ≠ JDict d) ∧ e = AttributeError) →
  (net w (sent st) (login_request CLIENT_ID CLIENT_SECRET) = Answer r →
   get_auth_token w CLIENT_ID CLIENT_SECRET st
   = (Raised e, after [EHttp (login_request CLIENT_ID CLIENT_SECRET);
                       status_line "Get Authentication token" r] 1 st))
  ∧ (∀ token headers,
       net w (sent st) (submit_request headers) = Answer r →
       submit_query w token headers st
       = (Raised e, after [EHttp (submit_request headers);
                           status_line "Execute Query" r] 1 st))
  ∧ (∀ query_id headers fuel,
       net w (sent st) (status_request w query_id headers) = Answer r →
       monitor_query_status w (S fuel) query_id headers st
       = (Raised e, after [EHttp (status_request w query_id headers);
                           status_line "Get Processing status" r] 1 st))
  ∧ (∀ query_id headers,
       net w (sent st) (download_request w query_id headers) = Answer r →
       download_results w query_id headers st
       = (Raised e, after [EHttp (download_request w query_id headers);
                           status_line "Get URI for csv file" r] 1 st)).
Proof.
  intros Hok Hbody.
  assert (∀ rq action key,
            fetched rq action key st (Answer r)
            = (Raised e, after [EHttp rq; status_line action r] 1 st)) as Hfetched.
  { intros rq action key. unfold fetched. rewrite Hok.
    destruct Hbody as [[-> ->]|(v & -> & Hv & ->)]; [done|].
    destruct v; try done. by destruct (Hv d). }
  split; [|split; [|split]].
  - intros Hnet. by rewrite get_auth_token_run, Hnet.
  - intros token headers Hnet. by rewrite submit_query_run, Hnet.
  - intros query_id headers fuel Hnet. rewrite monitor_step, Hnet, Hok.
    destruct Hbody as [[-> ->]|(v & -> & Hv & ->)]; [done|].
    destruct v; try done. by destruct (Hv d).
  - intros query_id headers Hnet. by rewrite download_results_run, Hnet.
Qed.

(** X8: no call of the script is guarded.  An exception raised by
    [requests] itself is raised by the operation that made the call, right
    after the request and before anything is printed about a response; the
    poller does not try again, [main] ends with the exception of its first
    request, and a download that raises leaves the file system as it was,
    the file being opened only once the response is there. *)
Theorem transport_exception_is_not_caught e st :
  (net w (sent st) (login_request CLIENT_ID CLIENT_SECRET) = Broken e →
   get_auth_token w CLIENT_ID CLIENT_SECRET st
   = (Raised e, after [EHttp (login_request CLIENT_ID CLIENT_SECRET)] 1 st)
   ∧ ∀ fuel, main w CLIENT_ID CLIENT_SECRET fuel st
             = (Raised e, after [EHttp (login_request CLIENT_ID CLIENT_SECRET)] 1 st))
  ∧ (∀ token headers,
       net w (sent st) (submit_request headers) = Broken e →
       submit_query w token headers st
       = (Raised e, after [EHttp (submit_request headers)] 1 st))
  ∧ (∀ query_id headers fuel,
       net w (sent st) (status_request w query_id headers) = Broken e →
       monitor_query_status w (S fuel) query_id headers st
       = (Raised e, after [EHttp (status_request w query_id headers)] 1 st))
  ∧ (∀ query_id headers,
       net w (sent st) (download_request w query_id headers) = Broken e →
       download_results w query_id headers st
       = (Raised e, after [EHttp (download_request w query_id headers)] 1 st))
  ∧ (∀ signed_uri,
       net w (sent st) (fetch_request w signed_uri) = Broken e →
       save_results w signed_uri st
       = (Raised e,
          after [EPrint ("Downloading csv file to "
                         +:+ csv_name (clock w (trace st)));
                 EHttp (fetch_request w signed_uri)] 1 st)).
Proof.
  split; [|split; [|split; [|split]]].
  - intros Hnet.
    assert (get_auth_token w CLIENT_ID CLIENT_SECRET st
            = (Raised e, after [EHttp (login_request CLIENT_ID CLIENT_SECRET)] 1 st))
      as Htoken by by rewrite get_auth_token_run, Hnet.
    split; [done|]. intros fuel. by apply main_token_fails.
  - intros token headers Hnet. by rewrite submit_query_run, Hnet.
  - intros query_id headers fuel Hnet. by rewrite monitor_step, Hnet.
  - intros query_id headers Hnet. by rewrite download_results_run, Hnet.
  - intros signed_uri Hnet. rewrite save_results_run.
    fold (fetch_request w signed_uri). by rewrite Hnet.
Qed.

(** X9: the status check guards the request for the result location but
    not the download.  The same error response (400 to 599) makes
    [download_results] raise the RuntimeError with its reason phrase, while
    [save_results] writes its content to the file and reports the download
    as completed. *)
Theorem download_is_saved_unchecked r st :
  400 ≤ status_code r < 600 →
  (∀ query_id headers,
     net w (sent st) (download_request w query_id headers) = Answer r →
     download_results w query_id headers st
     = (Raised (RuntimeError ("API request failed: " +:+ reason r)),
        after [EHttp (download_request w query_id headers);
               status_line "Get URI for csv file" r; error_line r] 1 st))
  ∧ (∀ signed_uri,
       net w (sent st) (fetch_request w signed_uri) = Answer r →
       let name := csv_name (clock w (trace st)) in
       save_results w signed_uri st
       = (Done tt,
          mkState (trace st ++ [EPrint ("Downloading csv file to " +:+ name);
                                EHttp (fetch_request w signed_uri);
                                EWrite name (content r);
                                EPrint "Download Completed"])
                  (S (sent st)) (<[name := content r]> (fs st)))).
Proof.
  intros Hok%ok_false. split.
  - intros query_id headers Hnet. rewrite download_results_run, Hnet.
    unfold fetched. by rewrite Hok.
  - intros signed_uri Hnet name. rewrite save_results_run.
    fold (fetch_request w signed_uri). by rewrite Hnet.
Qed.

(** *** File names *)

Lemma to_int_is_proper z :
  Z.to_int z ≠ Decimal.Pos Decimal.Nil ∧ Z.to_int z ≠ Decimal.Neg Decimal.Nil.
Proof.
  destruct z as [|p|p]; cbn; split; try discriminate; intros [= H];
    by apply DecimalPos.Unsigned.to_uint_nonnil in H.
Qed.

Lemma str_int_inj a b : str_int a = str_int b → a = b.
Proof.
  unfold str_int. intros H. apply (f_equal NilZero.int_of_string) in H.
  destruct (to_int_is_proper a), (to_int_is_proper b).
  rewrite !NilZero.isi in H by done. injection H as H.
  apply (f_equal Z.of_int) in H. by rewrite !DecimalZ.of_to in H.
Qed.

Lemma length_append s1 s2 :
  String.length (s1 +:+ s2) = (String.length s1 + String.length s2)%nat.
Proof.
  induction s1 as [|c s1 IH]; [done|].
  change (S (String.length (s1 +:+ s2)) = S (String.length s1 + String.length s2)).
  by rewrite IH.
Qed.

Lemma append_cancel_r s1 : ∀ s2 x, s1 +:+ x = s2 +:+ x → s1 = s2.
Proof.
  induction s1 as [|c s1 IH]; intros [|c' s2] x H; [done| | |].
  - apply (f_equal String.length) in H. rewrite !length_append in H.
    cbn [String.length] in H. lia.
  - apply (f_equal String.length) in H. rewrite !length_append in H.
    cbn [String.length] in H. lia.
  - injection H as -> H. f_equal. by eapply IH.
Qed.

Lemma csv_name_inj t1 t2 : csv_name t1 = csv_name t2 → t1 = t2.
Proof.
  unfold csv_name. intros H%append_cancel%append_cancel_r. by apply str_int_inj.
Qed.

(** X10: the file name tells the second of the save and nothing else.
    Clock readings that differ give names that differ; and of two downloads
    saved one after the other, both files are there when the clock moved
    between them, while within the same second the second download replaces
    the first. *)
Theorem saves_collide_within_a_second uri1 uri2 st r1 r2 :
  let st1 := (save_results w uri1 st).2 in
  let st2 := (save_results w uri2 st1).2 in
  let t1 := clock w (trace st) in
  let t2 := clock w (trace st1) in
  net w (sent st) (fetch_request w uri1) = Answer r1 →
  net w (S (sent st)) (fetch_request w uri2) = Answer r2 →
  (∀ a b, csv_name a = csv_name b ↔ a = b)
  ∧ fs st2 !! csv_name t2 = Some (content r2)
  ∧ fs st2 !! csv_name t1 = Some (if decide (t1 = t2) then content r2 else content r1)
  ∧ ∀ path, path ≠ csv_name t1 → path ≠ csv_name t2 → fs st2 !! path = fs st !! path.
Proof.
  intros st1 st2 t1 t2 Hnet1 Hnet2.
  assert (save_results w uri1 st
          = (Done tt,
             mkState (trace st ++ [EPrint ("Downloading csv file to " +:+ csv_name t1);
                                   EHttp (fetch_request w uri1);
                                   EWrite (csv_name t1) (content r1);
                                   EPrint "Download Completed"])
                     (S (sent st)) (<[csv_name t1 := content r1]> (fs st)))) as Hfirst.
  { rewrite save_results_run. fold (fetch_request w uri1). by rewrite Hnet1. }
  assert (fs st1 = <[csv_name t1 := content r1]> (fs st)) as Hfs1
    by (unfold st1; by rewrite Hfirst).
  assert (sent st1 = S (sent st)) as Hsent1 by (unfold st1; by rewrite Hfirst).
  assert (fs st2 = <[csv_name t2 := content r2]> (fs st1)) as Hfs2.
  { unfold st2. rewrite save_results_run. fold (fetch_request w uri2).
    by rewrite Hsent1, Hnet2. }
  split; [intros a b; split; [apply csv_name_inj|by intros ->]|].
  rewrite Hfs2, Hfs1. split; [apply lookup_insert_eq|]. split.
  - destruct (decide (t1 = t2)) as [->|Hne]; [apply lookup_insert_eq|].
    rewrite lookup_insert_ne, lookup_insert_eq; [done|].
    intros H%csv_name_inj. by apply Hne.
  - intros path H1 H2. by rewrite !lookup_insert_ne.
Qed.

(** *** Credentials *)

Lemma append_nil_l s : "" +:+ s = s.
Proof. reflexivity. Qed.

Lemma append_cons c s t : String c s +:+ t = String c (s +:+ t).
Proof. reflexivity. Qed.

Lemma colon_splits id1 : ∀ id2 s1 s2,
  has_colon id1 = false → has_colon id2 = false →
  id1 +:+ ":" +:+ s1 = id2 +:+ ":" +:+ s2 → id1 = id2 ∧ s1 = s2.
Proof.
  induction id1 as [|c id1 IH]; intros [|c' id2] s1 s2 H1 H2 H;
    rewrite ?append_cons, ?append_nil_l in H; cbn [has_colon] in H1, H2.
  - by injection H as ->.
  - injection H as <- _. by rewrite Ascii.eqb_refl in H2.
  - injection H as -> _. by rewrite Ascii.eqb_refl in H1.
  - injection H as -> H.
    apply orb_false_iff in H1 as [_ H1]. apply orb_false_iff in H2 as [_ H2].
    destruct (IH id2 s1 s2 H1 H2 H) as [-> ->]. done.
Qed.

(** X11: the Authorization header of the token request tells the text
    <client_id>:<client_secret> apart from any other, and the pair itself as
    long as no client id holds a colon; with a colon in the id the header
    of a:b with c is that of a with b:c. *)
Theorem basic_header_identifies_the_credentials id1 s1 id2 s2 :
  (auth_headers id1 s1 !! "Authorization" = auth_headers id2 s2 !! "Authorization"
   ↔ id1 +:+ ":" +:+ s1 = id2 +:+ ":" +:+ s2)
  ∧ (has_colon id1 = false → has_colon id2 = false →
     auth_headers id1 s1 !! "Authorization" = auth_headers id2 s2 !! "Authorization" →
     id1 = id2 ∧ s1 = s2)
  ∧ auth_headers "a:b" "c" = auth_headers "a" "b:c".
Proof.
  assert (auth_headers id1 s1 !! "Authorization"
          = auth_headers id2 s2 !! "Authorization"
          ↔ id1 +:+ ":" +:+ s1 = id2 +:+ ":" +:+ s2) as Hiff.
  { unfold auth_headers. rewrite !lookup_insert_eq. split.
    - intros [= H%append_cancel].
      apply (f_equal Base64.b64decode) in H.
      rewrite !b64decode_b64encode in H. by injection H.
    - by intros ->. }
  split; [done|]. split; [|done].
  intros H1 H2 H%Hiff. by apply colon_splits.
Qed.

End Facts.

(** ** The theorems at concrete runs *)

Lemma carries_status_reply s : carries "status" (JStr s) (status_reply s).
Proof. by eexists _, _. Qed.

Lemma poller_is_the_specified_state_machine_witness :
  (∃ es, io es = (Spec.poller (status_request three_polls (JStr "abc123") ∅)
                    ["SUBMITTED"; "RUNNING"; "COMPLETED"]).1
         ∧ ∀ fuel, monitor_query_status three_polls (3 + fuel) (JStr "abc123") ∅ initial
                   = (Done true, after es (length (requests es)) initial))
  ∧ (∃ es, sleeps es = [10; 10]
           ∧ monitor_query_status three_polls 3 (JStr "abc123") ∅ initial
             = (Done true, after es 3 initial)).
Proof.
  assert (polls_return three_polls (status_request three_polls (JStr "abc123") ∅)
            (sent initial) ["SUBMITTED"; "RUNNING"; "COMPLETED"])
    as Hpolls by (repeat split; apply carries_status_reply).
  destruct (poller_is_the_specified_state_machine three_polls (JStr "abc123") ∅ initial)
    as [Hrefines Hinstance].
  split.
  - exact (Hrefines _ Hpolls).
  - destruct (Hinstance Hpolls) as (es & _ & Hsleeps & Hrun).
    exists es. split; [exact Hsleeps|]. apply Hrun. lia.
Defined.

Lemma missing_status_is_terminal_failure_witness :
  monitor_query_status (constant_world (json_reply 200 "OK" [])) 7 (JStr "abc123") ∅
    initial
  = (Done false,
     after [EHttp (status_request (constant_world (json_reply 200 "OK" []))
                     (JStr "abc123") ∅);
            EPrint "Get Processing status - Response Status 200";
            EPrint "Error:Unknown status -NO_STATUS_RETURNED"] 1 initial).
Proof.
  refine (missing_status_is_terminal_failure
            (constant_world (json_reply 200 "OK" [])) (JStr "abc123") ∅ initial
            (json_response 200 "OK" []) ∅ 6 _ _ _ _).
  - reflexivity.
  - simpl. lia.
  - reflexivity.
  - reflexivity.
Defined.

Lemma unknown_status_is_failure_witness :
  monitor_query_status (constant_world (status_reply "WEIRD")) 1 (JStr "abc123") ∅
    initial
  = (Done false,
     after [EHttp (status_request (constant_world (status_reply "WEIRD"))
                     (JStr "abc123") ∅);
            EPrint "Get Processing status - Response Status 200";
            EPrint "Error:Unknown status -WEIRD"] 1 initial)
  ∧ monitor_query_status (constant_world (status_reply "CANCELLED")) 1
      (JStr "abc123") ∅ initial
    = (Done false,
       after [EHttp (status_request (constant_world (status_reply "CANCELLED"))
                       (JStr "abc123") ∅);
              EPrint "Get Processing status - Response Status 200";
              EPrint "Query failed with status: CANCELLED"] 1 initial).
Proof.
  split.
  - refine (proj1 (unknown_status_is_failure (constant_world (status_reply "WEIRD"))
                     (JStr "abc123") ∅ 0) initial
                (json_response 200 "OK" [("status", JStr "WEIRD")])
                (list_to_map [("status", JStr "WEIRD")]) "WEIRD" _ _ _ _ _);
      [reflexivity..|].
    rewrite !elem_of_cons, elem_of_nil. intros H.
    repeat (destruct H as [H|H]; [discriminate H|]). exact H.
  - refine (proj2 (unknown_status_is_failure (constant_world (status_reply "CANCELLED"))
                     (JStr "abc123") ∅ 0) initial
                (json_response 200 "OK" [("status", JStr "CANCELLED")])
                (list_to_map [("status", JStr "CANCELLED")]) "CANCELLED" _ _ _ _ _);
      [reflexivity..|].
    rewrite !elem_of_cons. right. left. reflexivity.
Defined.

Lemma missing_field_yields_empty_string_witness :
  (get_auth_token (constant_world (json_reply 200 "OK" [])) "id" "secret" initial).1
  = Done (JStr "")
  ∧ (submit_query (constant_world (json_reply 200 "OK" [])) (JStr "tok") ∅ initial).1
    = Done (JStr "")
  ∧ (download_results (constant_world (json_reply 200 "OK" [])) (JStr "abc123") ∅
       initial).1
    = Done (JStr "").
Proof.
  destruct (missing_field_yields_empty_string
              (constant_world (json_reply 200 "OK" [])) "id" "secret" initial
              (json_response 200 "OK" []) ∅)
    as (Htoken & Hsubmit & Hfetch).
  - simpl. lia.
  - reflexivity.
  - rewrite Htoken, (Hsubmit (JStr "tok") ∅), (Hfetch (JStr "abc123") ∅);
      repeat split; reflexivity.
Defined.

Lemma polling_http_failure_aborts_witness :
  (main forbidden_poll_run "id" "secret" 5 initial).1
  = Raised (RuntimeError "API request failed: Forbidden")
  ∧ sent (main forbidden_poll_run "id" "secret" 5 initial).2 = 4%nat.
Proof.
  destruct (polling_http_failure_aborts forbidden_poll_run "id" "secret" 5 initial
              (JStr "tok")
              (get_auth_token forbidden_poll_run "id" "secret" initial).2
              (JStr "abc123")
              (submit_query forbidden_poll_run (JStr "tok")
                 (bearer_headers forbidden_poll_run (JStr "tok"))
                 (get_auth_token forbidden_poll_run "id" "secret" initial).2).2
              ["RUNNING"] (json_response 403 "Forbidden" []))
    as [(es & _ & _ & Hmain) _].
  - reflexivity.
  - reflexivity.
  - repeat constructor.
  - repeat split. apply carries_status_reply.
  - reflexivity.
  - reflexivity.
  - simpl. lia.
  - rewrite Hmain. split; reflexivity.
Defined.

Lemma error_response_aborts_the_run_witness :
  main unauthorized_run "id" "secret" 5 initial
  = (Raised (RuntimeError "API request failed: Unauthorized"),
     after [EHttp (login_request "id" "secret");
            EPrint "Get Authentication token - Response Status 401";
            EPrint "Request Response Error Code Unauthorized"] 1 initial)
  ∧ (main rejected_submit_run "id" "secret" 5 initial).1
    = Raised (RuntimeError "API request failed: Bad Request")
  ∧ (main forbidden_poll_run "id" "secret" 5 initial).1
    = Raised (RuntimeError "API request failed: Forbidden").
Proof.
  split; [|split].
  - refine (proj2 (proj1 (error_response_aborts_the_run unauthorized_run "id" "secret"
                            (json_response 401 "Unauthorized" []) 5 initial _) _)).
    + simpl. lia.
    + reflexivity.
  - destruct (proj1 (proj2 (error_response_aborts_the_run rejected_submit_run
                              "id" "secret" (json_response 400 "Bad Request" [])
                              5 initial ltac:(simpl; lia)))
                (JStr "tok")
                (get_auth_token rejected_submit_run "id" "secret" initial).2)
      as [_ Hmain]; [reflexivity..|].
    rewrite Hmain. reflexivity.
  - destruct (proj2 (proj2 (error_response_aborts_the_run forbidden_poll_run
                              "id" "secret" (json_response 403 "Forbidden" [])
                              5 initial ltac:(simpl; lia)))
                (JStr "tok")
                (get_auth_token forbidden_poll_run "id" "secret" initial).2
                (JStr "abc123")
                (submit_query forbidden_poll_run (JStr "tok")
                   (bearer_headers forbidden_poll_run (JStr "tok"))
                   (get_auth_token forbidden_poll_run "id" "secret" initial).2).2
                ["RUNNING"])
      as (es & _ & _ & Hmain).
    + reflexivity.
    + reflexivity.
    + repeat constructor.
    + repeat split. apply carries_status_reply.
    + reflexivity.
    + simpl. lia.
    + rewrite Hmain. reflexivity.
Defined.

(** C2 as the specification words it fails: the token endpoint answers 300,
    a status code outside 200..299; [get_auth_token] raises nothing and
    returns the empty token, and [main] goes on to its next step and sends
    the submission. *)
Lemma redirection_reply_passes_the_check :
  net multiple_choices_run 0 (login_request "id" "secret")
  = Answer (json_response 300 "Multiple Choices" [("message", JStr "see other hosts")])
  ∧ ¬ (200 ≤ status_code (json_response 300 "Multiple Choices"
                            [("message", JStr "see other hosts")]) < 300)
  ∧ get_auth_token multiple_choices_run "id" "secret" initial
    = (Done (JStr ""),
       after [EHttp (login_request "id" "secret");
              EPrint "Get Authentication token - Response Status 300"] 1 initial)
  ∧ requests (trace (main multiple_choices_run "id" "secret" 3 initial).2)
    = [login_request "id" "secret";
       submit_request (bearer_headers multiple_choices_run (JStr ""))].
Proof.
  split; [reflexivity|]. split; [simpl; lia|]. split; [reflexivity|].
  vm_compute. reflexivity.
Qed.

Lemma failed_query_is_not_downloaded_witness :
  (main failed_run "id" "secret" 5 initial).1 = Done tt
  ∧ fs (main failed_run "id" "secret" 5 initial).2 = ∅
  ∧ sent (main failed_run "id" "secret" 5 initial).2 = 4%nat.
Proof.
  destruct (failed_query_is_not_downloaded failed_run "id" "secret" 5 initial
              (JStr "tok")
              (get_auth_token failed_run "id" "secret" initial).2
              (JStr "abc123")
              (submit_query failed_run (JStr "tok")
                 (bearer_headers failed_run (JStr "tok"))
                 (get_auth_token failed_run "id" "secret" initial).2).2
              ["RUNNING"] "FAILED")
    as (es & _ & _ & _ & _ & _ & Hmain).
  - reflexivity.
  - reflexivity.
  - repeat constructor.
  - rewrite elem_of_cons. left. reflexivity.
  - repeat split; apply carries_status_reply.
  - simpl. lia.
  - rewrite Hmain. repeat split; reflexivity.
Defined.

Lemma polling_is_unbounded_witness :
  ¬ terminates (constant_world (status_reply "RUNNING")) (JStr "abc123") ∅ initial
  ∧ terminates (constant_world (status_reply "COMPLETED")) (JStr "abc123") ∅ initial
  ∧ (monitor_query_status two_polls 1 (JStr "abc123") ∅ initial).1 = Unfinished.
Proof.
  split; [|split].
  - refine (proj1 (proj1 (polling_is_unbounded
                            (constant_world (status_reply "RUNNING"))
                            (JStr "abc123") ∅ initial) _)).
    intros i. exists "RUNNING". split; [apply carries_status_reply|reflexivity].
  - refine (proj2 (proj1 (proj2 (proj2 (polling_is_unbounded
                                          (constant_world (status_reply "COMPLETED"))
                                          (JStr "abc123") ∅ initial))) _) _).
    + intros i. right. exists "COMPLETED". apply carries_status_reply.
    + exists 0%nat. right. exists "COMPLETED".
      split; [apply carries_status_reply|reflexivity].
  - refine (proj1 (proj2 (proj2 (proj2 (polling_is_unbounded two_polls (JStr "abc123")
                                          ∅ initial))) 1%nat _ _) 1%nat _).
    + intros [|i] Hi; [|lia].
      exists "RUNNING". split; [apply carries_status_reply|reflexivity].
    + intros (s & (r & d & Hnet & _ & Hbody & Hd) & Hs).
      injection Hnet as <-. injection Hbody as <-.
      vm_compute in Hd. injection Hd as <-. discriminate Hs.
    + lia.
Defined.

Lemma successful_run_saves_the_download_witness :
  (main happy_run "id" "secret" 5 initial).1 = Done tt
  ∧ fs (main happy_run "id" "secret" 5 initial).2
    = {[ "gardin_query_api_results_1700000000.csv" := "a,b,c" ]}.
Proof.
  pose (st1 := (get_auth_token happy_run "id" "secret" initial).2).
  pose (headers := bearer_headers happy_run (JStr "tok")).
  pose (st2 := (submit_query happy_run (JStr "tok") headers st1).2).
  pose (st3 := (monitor_query_status happy_run 5 (JStr "abc123") headers
                  (after [submitted_line happy_run (JStr "abc123")] 0 st2)).2).
  pose (st4 := (download_results happy_run (JStr "abc123") headers st3).2).
  destruct (successful_run_saves_the_download happy_run "id" "secret" 5 initial
              (JStr "tok") st1 (JStr "abc123") st2 st3
              "https://signed/abc123.csv" st4
              (mkResponse 200 "OK" None "a,b,c"))
    as [Hmain _]; [reflexivity..|].
  rewrite Hmain. split; reflexivity.
Defined.

(** ** The further properties at concrete runs *)

Lemma poller_verdict_is_the_last_status_witness :
  ∃ k r d,
    sent (monitor_query_status three_polls 3 (JStr "abc123") ∅ initial).2
    = (S k + sent initial)%nat
    ∧ (k < 3)%nat
    ∧ (∀ i, (i < k)%nat →
         ∃ s, carries "status" (JStr s)
                (net three_polls (i + sent initial)
                   (status_request three_polls (JStr "abc123") ∅))
              ∧ is_pending s = true)
    ∧ net three_polls (k + sent initial)
        (status_request three_polls (JStr "abc123") ∅) = Answer r
    ∧ ok r = true
    ∧ text_json r = Some (JDict d)
    ∧ (true = true ↔ d !! "status" = Some (JStr "COMPLETED")).
Proof.
  apply (poller_verdict_is_the_last_status three_polls (JStr "abc123") ∅ 3 initial
           true).
  reflexivity.
Defined.


Lemma run_follows_the_fixed_order_witness :
  ∃ es token query_id k uri now body,
    trace (main happy_run "id" "secret" 5 initial).2 = trace initial ++ es
    ∧ sent (main happy_run "id" "secret" 5 initial).2
      = (length (requests es) + sent initial)%nat
    ∧ io es `prefix_of` run_io happy_run "id" "secret" token query_id k uri now body.
Proof.
  apply (run_follows_the_fixed_order happy_run "id" "secret" 5 initial
           (main happy_run "id" "secret" 5 initial).1).
  destruct (main happy_run "id" "secret" 5 initial). reflexivity.
Defined.

Lemma run_uses_the_returned_token_and_query_id_witness :
  ∃ es k uri now body,
    trace (main happy_run "id" "secret" 5 initial).2 = trace initial ++ es
    ∧ [EHttp (login_request "id" "secret");
       EHttp (submit_request (bearer_headers happy_run (JStr "tok")))]
      `prefix_of` io es
    ∧ io es `prefix_of`
        run_io happy_run "id" "secret" (JStr "tok") (JStr "abc123") k uri now body
    ∧ bearer_headers happy_run (JStr "tok") !! "Authorization" = Some "Bearer tok"
    ∧ rq_url (status_request happy_run (JStr "abc123")
                (bearer_headers happy_run (JStr "tok")))
      = "https://api.gardin.ag/v1/query/abc123/status/"
    ∧ rq_url (download_request happy_run (JStr "abc123")
                (bearer_headers happy_run (JStr "tok")))
      = "https://api.gardin.ag/v1/query/abc123/result/download".
Proof.
  apply (run_uses_the_returned_token_and_query_id happy_run "id" "secret" 5 initial
           (JStr "tok") (JStr "abc123") (main happy_run "id" "secret" 5 initial).1).
  - by eexists _, _.
  - by eexists _, _.
  - destruct (main happy_run "id" "secret" 5 initial). reflexivity.
Defined.

Lemma normal_return_has_two_endings_witness :
  (∃ es, trace (main failed_run "id" "secret" 5 initial).2 = trace initial ++ es
     ∧ ((last (console es) = Some "Download Completed"
         ∧ ∃ now body, writes es = [(csv_name now, body)]
                       ∧ fs (main failed_run "id" "secret" 5 initial).2
                         = <[csv_name now := body]> (fs initial))
        ∨ (last (console es) = Some "Query did not complete successfully"
           ∧ writes es = []
           ∧ fs (main failed_run "id" "secret" 5 initial).2 = fs initial
           ∧ ∃ token query_id k,
               length (requests es) = (k + 3)%nat
               ∧ ¬ carries "status" (JStr "COMPLETED")
                     (net failed_run (k + 2 + sent initial)
                        (status_request failed_run query_id
                           (bearer_headers failed_run token))))))
  ∧ (main happy_run "id" "secret" 5 initial).1
    = (main failed_run "id" "secret" 5 initial).1.
Proof.
  split.
  - apply (normal_return_has_two_endings failed_run "id" "secret" 5 initial).
    reflexivity.
  - reflexivity.
Defined.

Lemma unreadable_body_raises_witness :
  get_auth_token (constant_world (list_reply 200 "OK" [])) "id" "secret" initial
  = (Raised AttributeError,
     after [EHttp (login_request "id" "secret");
            EPrint "Get Authentication token - Response Status 200"] 1 initial)
  ∧ monitor_query_status (constant_world (Answer (mkResponse 200 "OK" None "")))
      7 (JStr "abc123") ∅ initial
    = (Raised JSONDecodeError,
       after [EHttp (status_request
                       (constant_world (Answer (mkResponse 200 "OK" None "")))
                       (JStr "abc123") ∅);
              EPrint "Get Processing status - Response Status 200"] 1 initial).
Proof.
  split.
  - refine (proj1 (unreadable_body_raises (constant_world (list_reply 200 "OK" []))
                     "id" "secret" (mkResponse 200 "OK" (Some (JList [])) "")
                     AttributeError initial _ _) _).
    + reflexivity.
    + right. exists (JList []). repeat split. discriminate.
    + reflexivity.
  - refine (proj1 (proj2 (proj2 (unreadable_body_raises
                     (constant_world (Answer (mkResponse 200 "OK" None "")))
                     "id" "secret" (mkResponse 200 "OK" None "")
                     JSONDecodeError initial _ _))) (JStr "abc123") ∅ 6%nat _).
    + reflexivity.
    + left. split; reflexivity.
    + reflexivity.
Defined.

Lemma transport_exception_is_not_caught_witness :
  main (constant_world no_reply) "id" "secret" 5 initial
  = (Raised (RequestException "connection refused"),
     after [EHttp (login_request "id" "secret")] 1 initial)
  ∧ fs (save_results (constant_world no_reply) (JStr "https://signed/abc123.csv")
          initial).2 = ∅.
Proof.
  destruct (transport_exception_is_not_caught (constant_world no_reply) "id" "secret"
              (RequestException "connection refused") initial)
    as (Htoken & _ & _ & _ & Hsave).
  split.
  - apply Htoken. reflexivity.
  - rewrite (Hsave (JStr "https://signed/abc123.csv")); reflexivity.
Defined.

Lemma download_is_saved_unchecked_witness :
  (download_results (constant_world (Answer refused_download)) (JStr "abc123") ∅
     initial).1
  = Raised (RuntimeError "API request failed: Forbidden")
  ∧ save_results (constant_world (Answer refused_download))
      (JStr "https://signed/abc123.csv") initial
    = (Done tt,
       mkState [EPrint "Downloading csv file to gardin_query_api_results_0.csv";
                EHttp (fetch_request (constant_world (Answer refused_download))
                         (JStr "https://signed/abc123.csv"));
                EWrite "gardin_query_api_results_0.csv" "<Error>AccessDenied</Error>";
                EPrint "Download Completed"]
               1 {[ "gardin_query_api_results_0.csv" := "<Error>AccessDenied</Error>" ]}).
Proof.
  destruct (download_is_saved_unchecked (constant_world (Answer refused_download))
              refused_download initial) as [Hlocation Hsave].
  - simpl. lia.
  - split.
    + rewrite (Hlocation (JStr "abc123") ∅); reflexivity.
    + apply (Hsave (JStr "https://signed/abc123.csv")). reflexivity.
Defined.

Lemma saves_collide_within_a_second_witness :
  fs (save_results two_downloads (JStr "https://signed/b.csv")
        (save_results two_downloads (JStr "https://signed/a.csv") initial).2).2
  !! "gardin_query_api_results_1700000000.csv" = Some "second".
Proof.
  refine (proj1 (proj2 (saves_collide_within_a_second two_downloads
            (JStr "https://signed/a.csv") (JStr "https://signed/b.csv") initial
            (mkResponse 200 "OK" None "first") (mkResponse 200 "OK" None "second")
            _ _))).
  - reflexivity.
  - reflexivity.
Defined.

Lemma basic_header_identifies_the_credentials_witness :
  "alice" = "alice" ∧ "s3cret" = "s3cret".
Proof.
  apply (proj1 (proj2 (basic_header_identifies_the_credentials
                         "alice" "s3cret" "alice" "s3cret")));
    reflexivity.
Defined.
